(** * NFS log scanner of salam-monitoring (package [nfs])

    A shallow embedding of [internal/nfs]: the scanner that walks the
    [source/date/workflow/artifact] tree under the NFS root, classifies each
    log file, derives one status per workflow and searches the logs.

    Go strings are byte sequences: they are Rocq [string]s, whose [ascii]
    characters are exactly the 256 byte values.  A Go [int] whose value is a
    length or a line count is a [Z].  A Go function returning [(T, error)]
    is a [result T] when it returns [nil] next to every error, and a pair
    [T * option error] when it returns both values ([detectErrors],
    [GetLogContent]).  The calls to the process-wide logger write to a sink
    that no function of the package reads back; they are left out. *)

From Stdlib Require Import String Ascii List Bool ZArith NArith Arith Lia.
From Stdlib Require Import Permutation Sorted.
Import ListNotations.
Local Open Scope string_scope.
Local Open Scope list_scope.

Set Implicit Arguments.

(** ** Errors and results *)

Inductive errno : Type := ENOENT | EACCES | ENOTDIR | EIO.

Inductive error : Type :=
| PathError (op path : string) (code : errno)   (* *fs.PathError *)
| ErrTooLong                                    (* bufio.ErrTooLong *)
| Errorf (msg : string) (cause : error).        (* fmt.Errorf("msg: %w", err) *)

Inductive result (A : Type) : Type :=
| Ok (a : A)
| Err (e : error).
Arguments Ok {A} a.
Arguments Err {A} e.

(** A call either returns or stops in a run-time panic. *)
Inductive outcome (A : Type) : Type :=
| Returns (r : result A)
| Panics (msg : string).
Arguments Returns {A} r.
Arguments Panics {A} msg.

(** [os.IsNotExist(err)]; it is [false] on a nil error. *)
Definition os_IsNotExist (e : error) : bool :=
  match e with
  | PathError _ _ ENOENT => true
  | _ => false
  end.

(** ** The Go library functions the scanner calls on strings *)

Definition LF : ascii := "010"%char.
Definition CR : ascii := "013"%char.

(** [strings.Contains(s, substr)]. *)
Fixpoint Contains (s substr : string) : bool :=
  if String.prefix substr s then true
  else match s with
       | EmptyString => false
       | String _ s' => Contains s' substr
       end.

(** The UTF-8 encodings of the runes for which [unicode.IsSpace] holds:
    the six ASCII ones, U+0085, U+00A0, U+1680, U+2000..U+200A, U+2028,
    U+2029, U+202F, U+205F and U+3000. *)
Definition space_runes : list (list ascii) :=
  map (map ascii_of_nat)
    ([[9]; [10]; [11]; [12]; [13]; [32];
      [194; 133]; [194; 160]; [225; 154; 128]]
     ++ map (fun b => [226; 128; b]) (seq 128 11)
     ++ [[226; 128; 168]; [226; 128; 169]; [226; 128; 175];
         [226; 129; 159]; [227; 128; 128]])%nat.

Fixpoint strip_prefix (p s : list ascii) : option (list ascii) :=
  match p, s with
  | [], _ => Some s
  | a :: p', b :: s' => if Ascii.eqb a b then strip_prefix p' s' else None
  | _ :: _, [] => None
  end.

Fixpoint strip_rune (runes : list (list ascii)) (s : list ascii)
  : option (list ascii) :=
  match runes with
  | [] => None
  | r :: runes' =>
      match strip_prefix r s with
      | Some s' => Some s'
      | None => strip_rune runes' s
      end
  end.

(** Drops leading runes of [runes]; [fuel] bounds the number dropped. *)
Fixpoint trim_runes (fuel : nat) (runes : list (list ascii)) (s : list ascii)
  : list ascii :=
  match fuel with
  | O => s
  | S fuel' =>
      match strip_rune runes s with
      | Some s' => trim_runes fuel' runes s'
      | None => s
      end
  end.

(** [strings.TrimSpace(s)]: leading, then trailing white space removed. *)
Definition TrimSpace (s : string) : string :=
  let l := list_ascii_of_string s in
  let l1 := trim_runes (List.length l) space_runes l in
  let l2 := trim_runes (List.length l1) (map (@rev ascii) space_runes) (rev l1) in
  string_of_list_ascii (rev l2).

(** ** [bufio.Scanner] with the default split function [bufio.ScanLines] *)

(** [bufio.MaxScanTokenSize]: a line of that many bytes or more does not fit
    the scanner's buffer. *)
Definition MaxScanTokenSize : N := 65536.

(** The segments of [data] between newlines ([strings.Split(data, "\n")]). *)
Fixpoint split_newline (data : string) : list string :=
  match data with
  | EmptyString => [EmptyString]
  | String c data' =>
      if Ascii.eqb c LF then EmptyString :: split_newline data'
      else match split_newline data' with
           | seg :: segs => String c seg :: segs
           | [] => [String c EmptyString]
           end
  end.

(** [ScanLines] ends a line at each newline; what follows the last newline
    is a line only when it is not empty. *)
Definition raw_lines (data : string) : list string :=
  let segs := split_newline data in
  if String.eqb (last segs EmptyString) EmptyString then removelast segs
  else segs.

(** [dropCR]: one trailing carriage return is not part of the line. *)
Fixpoint dropCR (line : string) : string :=
  match line with
  | EmptyString => EmptyString
  | String c EmptyString => if Ascii.eqb c CR then EmptyString else line
  | String c line' => String c (dropCR line')
  end.

(** The tokens successive calls of [Scan] deliver, and the error [Err]
    reports once [Scan] has returned false: [ErrTooLong] at the first line
    that does not fit the buffer, nil at the end of the data. *)
Fixpoint scan_tokens (lines : list string) : list string * option error :=
  match lines with
  | [] => ([], None)
  | line :: rest =>
      if (MaxScanTokenSize <=? N.of_nat (String.length line))%N
      then ([], Some ErrTooLong)
      else let (tokens, failure) := scan_tokens rest in
           (dropCR line :: tokens, failure)
  end.

(** Scanner state: the tokens not yet delivered, the error waiting behind
    them, the current token ([Text]) and the current error ([Err]). *)
Record bufio_Scanner : Type := mkScanner {
  pending : list string;
  failure : option error;
  Text : string;
  ScanErr : option error
}.

Definition NewScanner (data : string) : bufio_Scanner :=
  let (tokens, fail) := scan_tokens (raw_lines data) in
  {| pending := tokens; failure := fail; Text := EmptyString; ScanErr := None |}.

Definition Scan (sc : bufio_Scanner) : bool * bufio_Scanner :=
  match pending sc with
  | token :: rest =>
      (true, {| pending := rest; failure := failure sc;
                Text := token; ScanErr := None |})
  | [] =>
      (false, {| pending := []; failure := failure sc;
                 Text := EmptyString; ScanErr := failure sc |})
  end.

(** ** Data model *)

(** [LogEntry]: one discovered log file. *)
Module LogEntry.
Record t : Type := mk {
  Source : string;
  Date : string;
  Workflow : string;
  LogType : string;
  Content : string;
  HasErrors : bool;
  FilePath : string;
  Size : Z;
  ModTime : Z
}.

(** [result := *logEntry; result.Content = line]. *)
Definition with_Content (e : t) (line : string) : t :=
  mk (Source e) (Date e) (Workflow e) (LogType e) line (HasErrors e)
     (FilePath e) (Size e) (ModTime e).
End LogEntry.

(** [WorkflowSummary]: the logs of one workflow directory for one date. *)
Module WorkflowSummary.
Record t : Type := mk {
  Source : string;
  Date : string;
  Workflow : string;
  Logs : list LogEntry.t;
  HasErrors : bool;
  Status : string
}.

Definition with_Logs (s : t) (logs : list LogEntry.t) : t :=
  mk (Source s) (Date s) (Workflow s) logs (HasErrors s) (Status s).
Definition with_HasErrors (s : t) (b : bool) : t :=
  mk (Source s) (Date s) (Workflow s) (Logs s) b (Status s).
Definition with_Status (s : t) (status : string) : t :=
  mk (Source s) (Date s) (Workflow s) (Logs s) (HasErrors s) status.
End WorkflowSummary.

(** [Scanner]: the receiver of every method. *)
Record Scanner : Type := { nfsRoot : string }.

(** ** The world outside the package

    The file system is a snapshot: each call answers as a function of the
    path, and a file that opens is read to its end.  [time_Today] is
    [time.Now().Format("2006-01-02")]. *)

Module DirEntry.
Record t : Type := mk { Name : string; IsDir : bool }.
End DirEntry.

Module FileInfo.
Record t : Type := mk { Size : Z; ModTime : Z }.
End FileInfo.

Record OS : Type := {
  os_ReadDir : string -> result (list DirEntry.t);
  os_Stat : string -> result FileInfo.t;
  os_Open : string -> result string;
  time_Today : string
}.

(** [sort.Interface]: what [Less] must be for a sort to be meaningful. *)
Record StrictWeakOrdering (A : Type) (less : A -> A -> bool) : Prop := {
  less_irrefl : forall a, less a a = false;
  less_trans : forall a b c,
    less a b = true -> less b c = true -> less a c = true;
  less_neg_trans : forall a b c,
    less a b = false -> less b c = false -> less a c = false
}.

(** What a sort of [x] by [less] returns: the same elements, no element
    less than one before it. *)
Definition sorted_by (A : Type) (less : A -> A -> bool) (x y : list A) : Prop :=
  Permutation x y /\ Sorted (fun a b => less b a = false) y.

(** A file holds content that is not white space. *)
Definition has_content (data : string) : bool :=
  negb (String.eqb (TrimSpace data) EmptyString).

(** The fixed names of the three log kinds, in scan order. *)
Definition logTypes : list string := ["info.log"; "error.log"; "run.log"].

Definition errorPatterns : list string :=
  ["ERROR"; "FATAL"; "Exception"; "Failed"; "failure"; "FAILED";
   "error:"; "Error:"].

(** [allLines[start:]]: panics unless [0 <= start <= len(allLines)]. *)
Definition slice_from (A : Type) (l : list A) (start : Z) : outcome (list A) :=
  if (0 <=? start)%Z && (start <=? Z.of_nat (List.length l))%Z
  then Returns (Ok (skipn (Z.to_nat start) l))
  else Panics "slice bounds out of range".

(** ** Package [config]: the data and the process environment *)

Module ServerConfig.
Record t : Type := mk { Port : Z; Host : string }.
End ServerConfig.

Module PathsConfig.
Record t : Type := mk {
  NFSRoot : string;
  NFSRootTest : string;
  NFSRootProd : string;
  LogDir : string
}.
End PathsConfig.

Module InformaticaConfig.
Record t : Type := mk {
  Host : string;
  Port : Z;
  Database : string;
  Username : string;
  Password : string;
  TimeOffset : Z
}.
End InformaticaConfig.

Module ServicesConfig.
Record t : Type := mk {
  YarnRMURL : string;
  YarnRMURLTest : string;
  InformaticaDB : InformaticaConfig.t
}.
End ServicesConfig.

Module LoggingConfig.
Record t : Type := mk {
  Level : string;
  FilePath : string;
  FileLog : bool;
  JSONLog : bool
}.
End LoggingConfig.

Module DatabaseConfig.
Record t : Type := mk { SQLitePath : string }.
End DatabaseConfig.

Module Config.
Record t : Type := mk {
  Mode : string;
  Server : ServerConfig.t;
  Paths : PathsConfig.t;
  Services : ServicesConfig.t;
  Informatica : InformaticaConfig.t;
  Logging : LoggingConfig.t;
  Database : DatabaseConfig.t
}.
End Config.

(** The zero value of [InformaticaConfig]. *)
Definition InformaticaConfig_zero : InformaticaConfig.t :=
  InformaticaConfig.mk EmptyString 0 EmptyString EmptyString EmptyString 0.

(** The environment of the process: the variables that are set. *)
Definition Environ : Type := string -> option string.

(** [os.Getenv]: the empty string for a variable that is not set. *)
Definition os_Getenv (env : Environ) (key : string) : string :=
  match env key with
  | Some value => value
  | None => EmptyString
  end.

Definition has_byte (c : ascii) (s : string) : bool :=
  existsb (Ascii.eqb c) (list_ascii_of_string s).

(** [os.Setenv], the error left aside as its callers do: nothing is set
    for an empty key, a key holding [=] or a zero byte, or a value holding
    a zero byte. *)
Definition os_Setenv (env : Environ) (key value : string) : Environ :=
  if String.eqb key EmptyString
     || has_byte "="%char key || has_byte zero key || has_byte zero value
  then env
  else fun k => if String.eqb k key then Some value else env k.

(** [strings.HasSuffix]. *)
Definition HasSuffix (s suffix : string) : bool :=
  (String.length suffix <=? String.length s)%nat
  && String.eqb
       (substring (String.length s - String.length suffix)
          (String.length suffix) s)
       suffix.

(** [strings.SplitN(s, sep, 2)] for a separator of one byte: [s] alone
    when it does not hold the separator, else what is before its first
    occurrence and what is after. *)
Fixpoint split_at_first (sep : ascii) (s : string) : list string :=
  match s with
  | EmptyString => [EmptyString]
  | String c s' =>
      if Ascii.eqb c sep then [EmptyString; s']
      else match split_at_first sep s' with
           | [before; after] => [String c before; after]
           | _ => [s]
           end
  end.

Definition double_quote : string := String (ascii_of_nat 34) EmptyString.
Definition single_quote : string := String (ascii_of_nat 39) EmptyString.

(** The body of the loop of [LoadEnvFile] on one line of the file. *)
Definition load_env_line (env : Environ) (text : string) : Environ :=
  let line := TrimSpace text in
  if String.eqb line EmptyString || String.prefix "#" line then env
  else
    match split_at_first "="%char line with
    | [part0; part1] =>
        let key := TrimSpace part0 in
        let value := TrimSpace part1 in
        let value :=
          if (2 <=? String.length value)%nat
          then if (String.prefix double_quote value
                   && HasSuffix value double_quote)
                  || (String.prefix single_quote value
                      && HasSuffix value single_quote)
               then substring 1 (String.length value - 2) value
               else value
          else value in
        if String.eqb (os_Getenv env key) EmptyString
        then os_Setenv env key value
        else env
    | _ => env
    end.

Definition GetEnvWithDefault (env : Environ) (key defaultValue : string)
  : string :=
  if negb (String.eqb (os_Getenv env key) EmptyString) then os_Getenv env key
  else defaultValue.

Definition GetNFSRoot (c : Config.t) : string :=
  if negb (String.eqb (PathsConfig.NFSRoot (Config.Paths c)) EmptyString)
  then PathsConfig.NFSRoot (Config.Paths c)
  else if String.eqb (Config.Mode c) "test"
          && negb (String.eqb (PathsConfig.NFSRootTest (Config.Paths c))
                     EmptyString)
  then PathsConfig.NFSRootTest (Config.Paths c)
  else if String.eqb (Config.Mode c) "prod"
          && negb (String.eqb (PathsConfig.NFSRootProd (Config.Paths c))
                     EmptyString)
  then PathsConfig.NFSRootProd (Config.Paths c)
  else if String.eqb (Config.Mode c) "test" then "./nfs_backup/monitoring"
  else "/home/informaticaadmin/nfs_backup/monitoring".

Definition GetYarnURL (c : Config.t) : string :=
  if String.eqb (Config.Mode c) "test"
  then ServicesConfig.YarnRMURLTest (Config.Services c)
  else ServicesConfig.YarnRMURL (Config.Services c).

Definition IsProdMode (c : Config.t) : bool := String.eqb (Config.Mode c) "prod".

Definition IsTestMode (c : Config.t) : bool := String.eqb (Config.Mode c) "test".

(** [if v := os.Getenv(key); v != "" { field = v }]. *)
Definition override_string (env : Environ) (key current : string) : string :=
  if negb (String.eqb (os_Getenv env key) EmptyString) then os_Getenv env key
  else current.

(** [if v := os.Getenv(key); v != "" { field = v == "true" }]. *)
Definition override_bool (env : Environ) (key : string) (current : bool)
  : bool :=
  if negb (String.eqb (os_Getenv env key) EmptyString)
  then String.eqb (os_Getenv env key) "true"
  else current.

(** ** A small tree to run the scanner on

    [/nfs] holds three sources.  [batchA] has two workflows on 2025-01-10,
    one on 2025-01-11 and a directory that is no date at all; [batchB] has
    one workflow on 2025-01-11 only; the 2025-01-10 directory of [batchC]
    exists but cannot be listed. *)
Module Demo.

(** [filepath.Join] on elements that are clean already: the non-empty
    elements, separated by a slash. *)
Definition join (elem : list string) : string :=
  String.concat "/" (filter (fun e => negb (String.eqb e EmptyString)) elem).

Definition lower_byte (c : ascii) : ascii :=
  let n := nat_of_ascii c in
  if (65 <=? n)%nat && (n <=? 90)%nat then ascii_of_nat (n + 32) else c.

(** [strings.ToLower] on ASCII strings. *)
Fixpoint to_lower (s : string) : string :=
  match s with
  | EmptyString => EmptyString
  | String c s' => String (lower_byte c) (to_lower s')
  end.

Fixpoint insert (A : Type) (less : A -> A -> bool) (a : A) (l : list A)
  : list A :=
  match l with
  | [] => [a]
  | b :: l' => if less a b then a :: l else b :: insert less a l'
  end.

(** A sort that meets the contract of [sort.Slice]. *)
Definition insertion_sort (A : Type) (x : list A) (less : A -> A -> bool)
  : list A :=
  fold_right (insert less) [] x.

Definition dir (name : string) : DirEntry.t := DirEntry.mk name true.
Definition file (name : string) : DirEntry.t := DirEntry.mk name false.
Definition nl : string := String LF EmptyString.

(** A file of the given lines, each ended by a newline. *)
Definition text (lines : list string) : string :=
  String.concat EmptyString (map (fun line => String.append line nl) lines).

Definition dirs : list (string * list DirEntry.t) :=
  [("/nfs", [file "README"; dir "batchA"; dir "batchB"; dir "batchC"]);
   ("/nfs/batchA", [dir "2025-01-10"; dir "2025-01-11"; dir "not-a-date"]);
   ("/nfs/batchA/2025-01-10", [dir "job1"; dir "job2"; file "notes.txt"]);
   ("/nfs/batchA/2025-01-10/job1", [file "info.log"; file "run.log"]);
   ("/nfs/batchA/2025-01-10/job2", [file "info.log"]);
   ("/nfs/batchA/2025-01-11", [dir "job3"]);
   ("/nfs/batchA/2025-01-11/job3", [file "error.log"; file "info.log"]);
   ("/nfs/batchA/not-a-date", [dir "jobX"]);
   ("/nfs/batchA/not-a-date/jobX", [file "info.log"]);
   ("/nfs/batchB", [dir "2025-01-11"]);
   ("/nfs/batchB/2025-01-11", [dir "job4"]);
   ("/nfs/batchB/2025-01-11/job4", [file "run.log"]);
   ("/nfs/batchC", [dir "2025-01-10"])].

Definition files : list (string * string) :=
  [("/nfs/README", text ["logs"]);
   ("/nfs/batchA/2025-01-10/notes.txt", text ["FAILED"]);
   ("/nfs/batchA/2025-01-10/job1/info.log", text ["started"; "finished"]);
   ("/nfs/batchA/2025-01-10/job1/run.log", text ["done"]);
   ("/nfs/batchA/2025-01-10/job2/info.log", text ["step 1"; "load FAILED"]);
   ("/nfs/batchA/2025-01-11/job3/error.log", text [""; "boom"]);
   ("/nfs/batchA/2025-01-11/job3/info.log",
      text ["Starting"; "Fatal: disk"; "fatal again"]);
   ("/nfs/batchA/not-a-date/jobX/info.log", text ["x"]);
   ("/nfs/batchB/2025-01-11/job4/run.log", text ["ok"])].

(** Directories that exist and cannot be listed. *)
Definition locked : list string := ["/nfs/batchC/2025-01-10"].

Fixpoint lookup (A : Type) (key : string) (table : list (string * A))
  : option A :=
  match table with
  | [] => None
  | (k, v) :: table' => if String.eqb k key then Some v else lookup key table'
  end.

Definition ReadDir (path : string) : result (list DirEntry.t) :=
  if existsb (String.eqb path) locked then Err (PathError "open" path EACCES)
  else match lookup path dirs with
       | Some entries => Ok entries
       | None => Err (PathError "open" path ENOENT)
       end.

Definition Stat (path : string) : result FileInfo.t :=
  match lookup path files with
  | Some data => Ok (FileInfo.mk (Z.of_nat (String.length data)) 1736500000)
  | None =>
      if existsb (String.eqb path) locked then Ok (FileInfo.mk 4096 1736500000)
      else match lookup path dirs with
           | Some _ => Ok (FileInfo.mk 4096 1736500000)
           | None => Err (PathError "stat" path ENOENT)
           end
  end.

Definition Open (path : string) : result string :=
  match lookup path files with
  | Some data => Ok data
  | None => Err (PathError "open" path ENOENT)
  end.

Definition world : OS :=
  {| os_ReadDir := ReadDir; os_Stat := Stat; os_Open := Open;
     time_Today := "2025-01-11" |}.

Definition scanner : Scanner := {| nfsRoot := "/nfs" |}.

End Demo.

(** ** A small setting to load a configuration in

    The variable [ENV] is set to [prod]; the file [app.env] assigns [ENV],
    [PORT] and a quoted [NFS_ROOT]; the file [locked.env] exists and does
    not open; no other file exists. *)
Module DemoConfig.

Definition environ : Environ :=
  fun key => if String.eqb key "ENV" then Some "prod" else None.

Definition empty_environ : Environ := fun _ => None.

Definition app_env : string :=
  Demo.text ["# settings"; "ENV=test"; "PORT=9090";
             String.append "NFS_ROOT='/data/nfs'" " "; "no assignment"].

Definition Open (path : string) : result string :=
  if String.eqb path "app.env" then Ok app_env
  else if String.eqb path "locked.env"
  then Err (PathError "open" path EACCES)
  else Err (PathError "open" path ENOENT).

Definition Stat (path : string) : result FileInfo.t :=
  if String.eqb path "app.env"
  then Ok (FileInfo.mk (Z.of_nat (String.length app_env)) 1736500000)
  else if String.eqb path "locked.env"
  then Ok (FileInfo.mk 64 1736500000)
  else Err (PathError "stat" path ENOENT).

Definition world : OS :=
  {| os_ReadDir := fun path => Err (PathError "open" path ENOENT);
     os_Stat := Stat; os_Open := Open; time_Today := "2025-01-11" |}.

(** A parse of decimal digits, standing for [strconv.Atoi]. *)
Definition atoi (s : string) : option Z :=
  match list_ascii_of_string s with
  | [] => None
  | digits =>
      fold_left
        (fun acc c =>
           match acc with
           | Some n =>
               let d := nat_of_ascii c in
               if (48 <=? d)%nat && (d <=? 57)%nat
               then Some (10 * n + Z.of_nat (d - 48))%Z
               else None
           | None => None
           end)
        digits (Some 0%Z)
  end.

(** A decoder that reads nothing, standing for [yaml.Unmarshal]. *)
Definition unmarshal (data : string) (config : Config.t)
  : Config.t * option error :=
  (config, None).

End DemoConfig.

(** ** A log with a line that does not fit the scanner

    [/logs/big.log] holds a line of 65536 bytes, then the lines [a] and
    [b]. *)
Module DemoLong.

Definition long_line : string :=
  string_of_list_ascii (repeat "x"%char (N.to_nat MaxScanTokenSize)).

Definition big_log : string :=
  String.append long_line (String.append Demo.nl (Demo.text ["a"; "b"])).

Definition Open (path : string) : result string :=
  if String.eqb path "/logs/big.log" then Ok big_log
  else Err (PathError "open" path ENOENT).

Definition world : OS :=
  {| os_ReadDir := fun path => Err (PathError "open" path ENOENT);
     os_Stat := fun path => Err (PathError "stat" path ENOENT);
     os_Open := Open; time_Today := "2025-01-11" |}.

End DemoLong.

Section Methods.

(** [filepath.Join], [strings.ToLower] and [sort.Slice] are taken as they
    come; of [sort.Slice] only its contract is used. *)
Variable filepath_Join : list string -> string.
Variable strings_ToLower : string -> string.
Variable sort_Slice : forall A : Type, list A -> (A -> A -> bool) -> list A.
Hypothesis sort_Slice_sorts :
  forall (A : Type) (x : list A) (less : A -> A -> bool),
    StrictWeakOrdering less -> sorted_by less x (sort_Slice x less).

Variable os : OS.

(** The loop [for scanner.Scan() { ... }] of [detectErrors], over the
    tokens the scanner delivers: true at the first line containing one of
    the patterns. *)
Fixpoint detect_patterns (lines : list string) : bool :=
  match lines with
  | [] => false
  | line :: rest =>
      if existsb (fun pattern => Contains line pattern) errorPatterns
      then true
      else detect_patterns rest
  end.

Definition detectErrors (s : Scanner) (filePath logType : string)
  : bool * option error :=
  match os_Open os filePath with
  | Err e => (false, Some e)
  | Ok data =>
      let scanner := NewScanner data in
      if String.eqb logType "error.log" then
        let (_, scanner) := Scan scanner in
        ((0 <? String.length (TrimSpace (Text scanner)))%nat, ScanErr scanner)
      else if detect_patterns (pending scanner) then (true, None)
      else (false, failure scanner)
  end.

Definition scanLogFile (s : Scanner)
    (source date workflow logType filePath : string) : result LogEntry.t :=
  match os_Stat os filePath with
  | Err e => Err e
  | Ok stat =>
      match detectErrors s filePath logType with
      | (_, Some e) => Err e
      | (hasErrors, None) =>
          Ok (LogEntry.mk source date workflow logType EmptyString hasErrors
                filePath (FileInfo.Size stat) (FileInfo.ModTime stat))
      end
  end.

(** The loop looking for a [run.log] entry. *)
Fixpoint hasRunLog (logs : list LogEntry.t) : bool :=
  match logs with
  | [] => false
  | log :: rest =>
      if String.eqb (LogEntry.LogType log) "run.log" then true
      else hasRunLog rest
  end.

Definition determineWorkflowStatus (s : Scanner) (summary : WorkflowSummary.t)
  : string :=
  if WorkflowSummary.HasErrors summary then "Failed"
  else if (List.length (WorkflowSummary.Logs summary) =? 0)%nat then "No Logs"
  else if hasRunLog (WorkflowSummary.Logs summary)
          && negb (WorkflowSummary.HasErrors summary)
  then "Completed"
  else "In Progress".

(** One iteration of the loop over [logTypes] in [scanWorkflow]. *)
Definition scanWorkflow_step (s : Scanner)
    (source date workflow workflowPath : string)
    (summary : WorkflowSummary.t) (logType : string) : WorkflowSummary.t :=
  let logPath := filepath_Join [workflowPath; logType] in
  let missing :=
    match os_Stat os logPath with
    | Err e => os_IsNotExist e
    | Ok _ => false
    end in
  if missing then summary
  else
    match scanLogFile s source date workflow logType logPath with
    | Err _ => summary
    | Ok logEntry =>
        let summary :=
          WorkflowSummary.with_Logs summary
            (WorkflowSummary.Logs summary ++ [logEntry]) in
        if LogEntry.HasErrors logEntry
        then WorkflowSummary.with_HasErrors summary true
        else summary
    end.

Definition scanWorkflow (s : Scanner) (source date workflow : string)
  : result WorkflowSummary.t :=
  let workflowPath := filepath_Join [nfsRoot s; source; date; workflow] in
  let summary :=
    WorkflowSummary.mk source date workflow [] false "Unknown" in
  let summary :=
    fold_left (scanWorkflow_step s source date workflow workflowPath)
      logTypes summary in
  Ok (WorkflowSummary.with_Status summary (determineWorkflowStatus s summary)).

(** The names of the directories among [entries], in listing order. *)
Definition directory_names (entries : list DirEntry.t) : list string :=
  map DirEntry.Name (filter DirEntry.IsDir entries).

Definition getWorkflowDirectories (s : Scanner) (datePath : string)
  : result (list string) :=
  match os_ReadDir os datePath with
  | Err e => Err e
  | Ok entries => Ok (directory_names entries)
  end.

Definition getSourceDirectories (s : Scanner) : result (list string) :=
  match os_ReadDir os (nfsRoot s) with
  | Err e => Err e
  | Ok entries => Ok (directory_names entries)
  end.

Definition scanSourceForDate (s : Scanner) (source date : string)
  : result (list WorkflowSummary.t) :=
  let datePath := filepath_Join [nfsRoot s; source; date] in
  let missing :=
    match os_Stat os datePath with
    | Err e => os_IsNotExist e
    | Ok _ => false
    end in
  if missing then Ok []
  else
    match getWorkflowDirectories s datePath with
    | Err e => Err e
    | Ok workflows =>
        Ok (fold_left
              (fun summaries workflow =>
                 match scanWorkflow s source date workflow with
                 | Err _ => summaries
                 | Ok summary => summaries ++ [summary]
                 end)
              workflows [])
    end.

(** The [less] function handed to [sort.Slice]. *)
Definition summary_less (a b : WorkflowSummary.t) : bool :=
  if negb (String.eqb (WorkflowSummary.Source a) (WorkflowSummary.Source b))
  then String.ltb (WorkflowSummary.Source a) (WorkflowSummary.Source b)
  else String.ltb (WorkflowSummary.Workflow a) (WorkflowSummary.Workflow b).

Definition ScanLogsForDate (s : Scanner) (date : string)
  : result (list WorkflowSummary.t) :=
  match getSourceDirectories s with
  | Err e => Err (Errorf "failed to get source directories" e)
  | Ok sources =>
      let summaries :=
        fold_left
          (fun summaries source =>
             match scanSourceForDate s source date with
             | Err _ => summaries
             | Ok sourceSummaries => summaries ++ sourceSummaries
             end)
          sources [] in
      Ok (sort_Slice summaries summary_less)
  end.

Definition ScanTodaysLogs (s : Scanner) : result (list WorkflowSummary.t) :=
  ScanLogsForDate s (time_Today os).

(** The loop of [GetLogContent]: one iteration per successful [Scan]. *)
Fixpoint read_loop (tokens : list string) (fail : option error)
    (maxLines lineCount : Z) (lines : list string)
  : list string * option error :=
  match tokens with
  | [] => (lines, fail)
  | token :: rest =>
      if (maxLines =? 0)%Z || (lineCount <? maxLines)%Z
      then read_loop rest fail maxLines (lineCount + 1)%Z (lines ++ [token])
      else (lines, None)
  end.

Definition GetLogContent (s : Scanner) (filePath : string) (maxLines : Z)
  : list string * option error :=
  match os_Open os filePath with
  | Err e => ([], Some e)
  | Ok data =>
      let scanner := NewScanner data in
      read_loop (pending scanner) (failure scanner) maxLines 0 []
  end.

(** [len(allLines) - lines] cannot leave the range of [int] when [lines]
    is not negative; when it is, [start] is out of bounds either way. *)
Definition GetLogTail (s : Scanner) (filePath : string) (lines : Z)
  : outcome (list string) :=
  match GetLogContent s filePath 0 with
  | (_, Some e) => Returns (Err e)
  | (allLines, None) =>
      let len := Z.of_nat (List.length allLines) in
      let start := if (len >? lines)%Z then (len - lines)%Z else 0%Z in
      slice_from allLines start
  end.

(** The loop over the lines read from one file: the first line that
    contains the keyword, both folded to lower case. *)
Fixpoint first_match (keyword : string) (content : list string)
  : option string :=
  match content with
  | [] => None
  | line :: rest =>
      if Contains (strings_ToLower line) (strings_ToLower keyword)
      then Some line
      else first_match keyword rest
  end.

(** One iteration of the loop over the logs of a summary. *)
Definition search_log (s : Scanner) (keyword : string)
    (results : list LogEntry.t) (logEntry : LogEntry.t) : list LogEntry.t :=
  match GetLogContent s (LogEntry.FilePath logEntry) 1000 with
  | (_, Some _) => results
  | (content, None) =>
      match first_match keyword content with
      | Some line => results ++ [LogEntry.with_Content logEntry line]
      | None => results
      end
  end.

(** The two nested loops of [SearchLogs]. *)
Definition search_summaries (s : Scanner) (keyword : string)
    (summaries : list WorkflowSummary.t) : list LogEntry.t :=
  fold_left
    (fun results summary =>
       fold_left (search_log s keyword) (WorkflowSummary.Logs summary) results)
    summaries [].

Definition SearchLogs (s : Scanner) (keyword : string)
  : result (list LogEntry.t) :=
  match ScanTodaysLogs s with
  | Err e => Err e
  | Ok summaries => Ok (search_summaries s keyword summaries)
  end.

(** ** The specification's vocabulary *)

(** The status table of the workflow inspector, read off the logs found. *)
Definition any_error (logs : list LogEntry.t) : bool :=
  existsb LogEntry.HasErrors logs.

Definition has_summary (logs : list LogEntry.t) : bool :=
  existsb (fun log => String.eqb (LogEntry.LogType log) "run.log") logs.

Definition valid_statuses : list string :=
  ["Failed"; "No Logs"; "Completed"; "In Progress"].

(** Ordinal comparison of the keys of two adjacent runs. *)
Definition ordered_pair (a b : WorkflowSummary.t) : Prop :=
  String.ltb (WorkflowSummary.Source a) (WorkflowSummary.Source b) = true
  \/ (WorkflowSummary.Source a = WorkflowSummary.Source b
      /\ String.leb (WorkflowSummary.Workflow a) (WorkflowSummary.Workflow b)
         = true).

(** What one workflow directory adds to the runs of its source. *)
Definition runs_of_workflow (s : Scanner) (source date workflow : string)
  : list WorkflowSummary.t :=
  match scanWorkflow s source date workflow with
  | Ok summary => [summary]
  | Err _ => []
  end.

(** What one source adds to a scan: its runs, or nothing when it fails. *)
Definition runs_of_source (s : Scanner) (date source : string)
  : list WorkflowSummary.t :=
  match scanSourceForDate s source date with
  | Ok summaries => summaries
  | Err _ => []
  end.

(** The order of [summary_less] on the keys (source, workflow). *)
Definition key_lt (a b : WorkflowSummary.t) : Prop :=
  String.compare (WorkflowSummary.Source a) (WorkflowSummary.Source b) = Lt
  \/ (WorkflowSummary.Source a = WorkflowSummary.Source b
      /\ String.compare (WorkflowSummary.Workflow a) (WorkflowSummary.Workflow b)
         = Lt).

Definition key_eq (a b : WorkflowSummary.t) : Prop :=
  WorkflowSummary.Source a = WorkflowSummary.Source b
  /\ WorkflowSummary.Workflow a = WorkflowSummary.Workflow b.

(** The shape [YYYY-MM-DD] of a date string. *)
Definition is_digit (c : ascii) : bool :=
  let n := nat_of_ascii c in (48 <=? n)%nat && (n <=? 57)%nat.

Definition is_iso_date (date : string) : bool :=
  match list_ascii_of_string date with
  | [y1; y2; y3; y4; d1; m1; m2; d2; a1; a2] =>
      forallb is_digit [y1; y2; y3; y4; m1; m2; a1; a2]
      && Ascii.eqb d1 "-" && Ascii.eqb d2 "-"
  | _ => false
  end.

(** The search as the specification words it: over the runs of a scan of
    [date], each file gives its first line containing the keyword, case
    folded, among the lines read with a cap of 1000, and nothing when it
    cannot be read. *)
Definition line_matches (keyword line : string) : bool :=
  Contains (strings_ToLower line) (strings_ToLower keyword).

Definition search_file (s : Scanner) (keyword : string) (logEntry : LogEntry.t)
  : list LogEntry.t :=
  match GetLogContent s (LogEntry.FilePath logEntry) 1000 with
  | (content, None) =>
      match find (line_matches keyword) content with
      | Some line => [LogEntry.with_Content logEntry line]
      | None => []
      end
  | (_, Some _) => []
  end.

Definition search_on_date (s : Scanner) (keyword date : string)
  : result (list LogEntry.t) :=
  match ScanLogsForDate s date with
  | Err e => Err e
  | Ok summaries =>
      Ok (flat_map (search_file s keyword)
            (flat_map WorkflowSummary.Logs summaries))
  end.

(** ** What a scan finds, read off the file system *)

(** The path [scanWorkflow] gives the log of kind [logType]. *)
Definition log_path (s : Scanner) (source date workflow logType : string)
  : string :=
  filepath_Join [filepath_Join [nfsRoot s; source; date; workflow]; logType].

(** What one iteration of the loop of [scanWorkflow] appends. *)
Definition found_log (s : Scanner) (source date workflow logType : string)
  : list LogEntry.t :=
  match os_Stat os (log_path s source date workflow logType) with
  | Err _ => []
  | Ok _ =>
      match scanLogFile s source date workflow logType
              (log_path s source date workflow logType) with
      | Ok logEntry => [logEntry]
      | Err _ => []
      end
  end.

(** The log of kind [logType] is there for [os.Stat] and [detectErrors]
    reads it without an error. *)
Definition log_readable (s : Scanner) (source date workflow logType : string)
  : bool :=
  match os_Stat os (log_path s source date workflow logType) with
  | Err _ => false
  | Ok _ =>
      match snd (detectErrors s (log_path s source date workflow logType)
                   logType) with
      | None => true
      | Some _ => false
      end
  end.

(** The workflow directories of a source for a date: none when the date
    directory is missing or cannot be listed. *)
Definition workflow_dirs (s : Scanner) (source date : string) : list string :=
  if match os_Stat os (filepath_Join [nfsRoot s; source; date]) with
     | Ok _ => false
     | Err e => os_IsNotExist e
     end
  then []
  else match os_ReadDir os (filepath_Join [nfsRoot s; source; date]) with
       | Ok entries => directory_names entries
       | Err _ => []
       end.

(** The identity of a run. *)
Definition run_key (run : WorkflowSummary.t) : string * string * string :=
  (WorkflowSummary.Source run, WorkflowSummary.Date run,
   WorkflowSummary.Workflow run).

(** ** Package [web]: what the log page does with a scan *)

Definition filterWorkflows (workflows : list WorkflowSummary.t)
    (source status : string) : list WorkflowSummary.t :=
  fold_left
    (fun filtered workflow =>
       if negb (String.eqb source EmptyString)
          && negb (String.eqb (WorkflowSummary.Source workflow) source)
       then filtered
       else if negb (String.eqb status EmptyString)
               && negb (String.eqb (WorkflowSummary.Status workflow) status)
       then filtered
       else filtered ++ [workflow])
    workflows [].

Definition getWorkflowStatusClass (status : string) : string :=
  if String.eqb status "completed" then "bg-green-100 text-green-800"
  else if String.eqb status "failed" then "bg-red-100 text-red-800"
  else if String.eqb status "running" then "bg-yellow-100 text-yellow-800"
  else "bg-gray-100 text-gray-800".

(** The test [filterWorkflows] makes of one run. *)
Definition passes_filter (source status : string) (run : WorkflowSummary.t)
  : bool :=
  (String.eqb source EmptyString
   || String.eqb (WorkflowSummary.Source run) source)
  && (String.eqb status EmptyString
      || String.eqb (WorkflowSummary.Status run) status).

(** ** Package [config]: loading the configuration

    [strconv.Atoi] and [yaml.Unmarshal] are taken as they come:
    [strconv.Atoi] gives the number, or nothing when it returns an error;
    [yaml.Unmarshal] may have written to the configuration before it
    fails.  [os.ReadFile] is the opening and reading of the world.  What
    the functions print is left out. *)

Variable strconv_Atoi : string -> option Z.
Variable yaml_Unmarshal : string -> Config.t -> Config.t * option error.

(** [if v := os.Getenv(key); v != "" { if p, err := strconv.Atoi(v);
    err == nil { field = p } }]. *)
Definition override_int (env : Environ) (key : string) (current : Z) : Z :=
  if negb (String.eqb (os_Getenv env key) EmptyString)
  then match strconv_Atoi (os_Getenv env key) with
       | Some p => p
       | None => current
       end
  else current.

Definition LoadEnvFile (env : Environ) (filename : string)
  : Environ * option error :=
  match os_Open os filename with
  | Err e => if os_IsNotExist e then (env, None) else (env, Some e)
  | Ok data =>
      let scanner := NewScanner data in
      (fold_left load_env_line (pending scanner) env, failure scanner)
  end.

Definition LoadFromEnv (env : Environ) : Config.t :=
  let port := override_int env "PORT" 8080 in
  let infDBPort := override_int env "INFORMATICA_DB_PORT" 1433 in
  let timeOffset := override_int env "INFORMATICA_TIME_OFFSET" 3 in
  let fileLog :=
    String.eqb (GetEnvWithDefault env "LOG_FILE_ENABLED" "true") "true" in
  let jsonLog :=
    String.eqb (GetEnvWithDefault env "LOG_JSON_ENABLED" "false") "true" in
  Config.mk
    (GetEnvWithDefault env "ENV" "test")
    (ServerConfig.mk port (GetEnvWithDefault env "HOST" "0.0.0.0"))
    (PathsConfig.mk
       (GetEnvWithDefault env "NFS_ROOT" EmptyString)
       (GetEnvWithDefault env "NFS_ROOT_TEST" "./nfs_backup/monitoring")
       (GetEnvWithDefault env "NFS_ROOT_PROD"
          "/home/informaticaadmin/nfs_backup/monitoring")
       (GetEnvWithDefault env "LOG_DIR" "./logs"))
    (ServicesConfig.mk
       (GetEnvWithDefault env "YARN_RM_URL" "http://rm-host:8088")
       (GetEnvWithDefault env "YARN_RM_URL_TEST" "./mock/yarn/apps.json")
       (InformaticaConfig.mk
          (GetEnvWithDefault env "INFORMATICA_DB_HOST" "localhost")
          infDBPort
          (GetEnvWithDefault env "INFORMATICA_DB_NAME" "INFORMATICA")
          (GetEnvWithDefault env "INFORMATICA_DB_USER" "repo_read")
          (GetEnvWithDefault env "INFORMATICA_DB_PASS" "password")
          timeOffset))
    InformaticaConfig_zero
    (LoggingConfig.mk
       (GetEnvWithDefault env "LOG_LEVEL" "info")
       (GetEnvWithDefault env "LOG_FILE_PATH" "./logs")
       fileLog jsonLog)
    (DatabaseConfig.mk (GetEnvWithDefault env "SQLITE_PATH" "data/history.db")).

(** Each assignment of [applyEnvOverrides] writes one field from one
    variable; the fields no assignment names are copied. *)
Definition applyEnvOverrides (env : Environ) (config : Config.t) : Config.t :=
  let server := Config.Server config in
  let paths := Config.Paths config in
  let services := Config.Services config in
  let db := ServicesConfig.InformaticaDB services in
  let logging := Config.Logging config in
  Config.mk
    (override_string env "ENV" (Config.Mode config))
    (ServerConfig.mk
       (override_int env "SERVER_PORT" (ServerConfig.Port server))
       (override_string env "SERVER_HOST" (ServerConfig.Host server)))
    (PathsConfig.mk
       (PathsConfig.NFSRoot paths)
       (override_string env "NFS_ROOT_TEST" (PathsConfig.NFSRootTest paths))
       (override_string env "NFS_ROOT_PROD" (PathsConfig.NFSRootProd paths))
       (override_string env "LOG_DIR" (PathsConfig.LogDir paths)))
    (ServicesConfig.mk
       (override_string env "YARN_RM_URL" (ServicesConfig.YarnRMURL services))
       (override_string env "YARN_RM_URL_TEST"
          (ServicesConfig.YarnRMURLTest services))
       (InformaticaConfig.mk
          (override_string env "INF_DB_HOST" (InformaticaConfig.Host db))
          (override_int env "INF_DB_PORT" (InformaticaConfig.Port db))
          (override_string env "INFORMATICA_DB_NAME"
             (InformaticaConfig.Database db))
          (override_string env "INF_DB_USER" (InformaticaConfig.Username db))
          (override_string env "INF_DB_PASSWORD"
             (InformaticaConfig.Password db))
          (override_int env "TIME_OFFSET_HOURS"
             (InformaticaConfig.TimeOffset db))))
    (Config.Informatica config)
    (LoggingConfig.mk
       (override_string env "LOG_LEVEL" (LoggingConfig.Level logging))
       (LoggingConfig.FilePath logging)
       (override_bool env "LOG_FILE" (LoggingConfig.FileLog logging))
       (override_bool env "LOG_JSON" (LoggingConfig.JSONLog logging)))
    (Config.Database config).

Definition fileExists (filename : string) : bool :=
  match os_Stat os filename with
  | Ok _ => true
  | Err e => negb (os_IsNotExist e)
  end.

Definition loadConfigFile (config : Config.t) (filename : string)
  : Config.t * option error :=
  match os_Open os filename with
  | Err e => (config, Some e)
  | Ok data =>
      match yaml_Unmarshal data config with
      | (config', Some e) =>
          (config', Some (Errorf "failed to parse config file" e))
      | (config', None) => (config', None)
      end
  end.

(** The loop of [LoadConfig] over the candidate files: it stops at the
    first file that exists and loads without an error. *)
Fixpoint load_first (config : Config.t) (configFiles : list string)
  : Config.t :=
  match configFiles with
  | [] => config
  | file :: rest =>
      if fileExists file
      then match loadConfigFile config file with
           | (config', None) => config'
           | (config', Some _) => load_first config' rest
           end
      else load_first config rest
  end.

(** The configuration [LoadConfig] starts from. *)
Definition default_config (mode : string) : Config.t :=
  Config.mk mode
    (ServerConfig.mk 8080 "0.0.0.0")
    (PathsConfig.mk "./nfs_backup/monitoring" "./nfs_backup/monitoring"
       "/home/informaticaadmin/nfs_backup/monitoring" "./logs")
    (ServicesConfig.mk "http://rm-host:8088" "./mock/yarn/apps.json"
       (InformaticaConfig.mk "172.16.1.100" 1433 "INFORMATICA_PROD"
          "repo_read" "password" 3))
    InformaticaConfig_zero
    (LoggingConfig.mk "info" "./logs" true false)
    (DatabaseConfig.mk "data/history.db").

(** The files [LoadConfig] tries, in order: the one it is given, else
    those of the mode. *)
Definition candidate_files (env : Environ) (configPath : string)
  : list string :=
  if negb (String.eqb configPath EmptyString) then [configPath]
  else
    let mode := GetEnvWithDefault env "ENV" "test" in
    if String.eqb mode "prod" || String.eqb mode "production"
    then ["prod-config.yaml"; "./config/prod-config.yaml";
          "config/prod-config.yaml"; "./prod-config.yaml"]
    else ["config.yaml"; "./config/config.yaml"; "config/config.yaml";
          "./config.yaml"].

(** [LoadConfig] returns the configuration and leaves the environment as
    [LoadEnvFile] has made it. *)
Definition LoadConfig (env : Environ) (configPath : string)
  : Environ * result Config.t :=
  if negb (String.eqb configPath EmptyString)
     && HasSuffix (strings_ToLower configPath) ".env"
  then
    match LoadEnvFile env configPath with
    | (env, Some e) => (env, Err (Errorf "failed to load .env file" e))
    | (env, None) => (env, Ok (LoadFromEnv env))
    end
  else
    let (env, _) := LoadEnvFile env ".env" in
    let config := default_config (GetEnvWithDefault env "ENV" "test") in
    let configFiles := candidate_files env configPath in
    let config := load_first config configFiles in
    (env, Ok (applyEnvOverrides env config)).

(** What a line of an env file asks for: the variable and the value,
    when the line is an assignment. *)
Definition env_assignment (text : string) : option (string * string) :=
  let line := TrimSpace text in
  if String.eqb line EmptyString || String.prefix "#" line then None
  else
    match split_at_first "="%char line with
    | [part0; part1] =>
        let value := TrimSpace part1 in
        Some (TrimSpace part0,
              if (2 <=? String.length value)%nat
              then if (String.prefix double_quote value
                       && HasSuffix value double_quote)
                      || (String.prefix single_quote value
                          && HasSuffix value single_quote)
                   then substring 1 (String.length value - 2) value
                   else value
              else value)
    | _ => None
    end.

(** [os.Setenv] accepts the variable and the value. *)
Definition settable (key value : string) : bool :=
  negb (String.eqb key EmptyString
        || has_byte "="%char key || has_byte zero key || has_byte zero value).

(** Two environments that [os.Getenv] cannot tell apart. *)
Definition same_environ (env env' : Environ) : Prop :=
  forall key, os_Getenv env key = os_Getenv env' key.

(** ** Order on strings *)

Lemma ascii_compare_refl (a : ascii) : Ascii.compare a a = Eq.
Proof. unfold Ascii.compare. apply N.compare_refl. Qed.

Lemma ascii_compare_lt_trans (a b c : ascii) :
  Ascii.compare a b = Lt -> Ascii.compare b c = Lt -> Ascii.compare a c = Lt.
Proof.
  unfold Ascii.compare. rewrite !N.compare_lt_iff. apply N.lt_trans.
Qed.

Lemma string_compare_refl (x : string) : String.compare x x = Eq.
Proof.
  induction x as [|a x IH]; simpl; [reflexivity|].
  now rewrite ascii_compare_refl.
Qed.

Lemma string_compare_eq (x y : string) : String.compare x y = Eq -> x = y.
Proof. apply String.compare_eq_iff. Qed.

Lemma string_lt_trans (x y z : string) :
  String.compare x y = Lt -> String.compare y z = Lt -> String.compare x z = Lt.
Proof.
  revert y z.
  induction x as [|a x IH]; intros [|b y] [|c z]; simpl; try congruence.
  destruct (Ascii.compare a b) eqn:Hab; try discriminate;
    destruct (Ascii.compare b c) eqn:Hbc; try discriminate; intros Hxy Hyz.
  - apply Ascii.compare_eq_iff in Hab, Hbc. subst.
    rewrite ascii_compare_refl. eauto.
  - apply Ascii.compare_eq_iff in Hab. subst. now rewrite Hbc.
  - apply Ascii.compare_eq_iff in Hbc. subst. now rewrite Hab.
  - now rewrite (ascii_compare_lt_trans _ _ _ Hab Hbc).
Qed.

Lemma string_lt_irrefl (x : string) : String.compare x x <> Lt.
Proof. rewrite string_compare_refl. discriminate. Qed.

Lemma string_trichotomy (x y : string) :
  String.compare x y = Lt \/ x = y \/ String.compare y x = Lt.
Proof.
  destruct (String.compare x y) eqn:H.
  - right; left. now apply string_compare_eq.
  - now left.
  - right; right. rewrite String.compare_antisym, H. reflexivity.
Qed.

Lemma string_ltb_lt (x y : string) :
  String.ltb x y = true <-> String.compare x y = Lt.
Proof.
  unfold String.ltb. destruct (String.compare x y); split; congruence.
Qed.

(** ** The order [sort.Slice] is given *)

Lemma summary_less_key_lt (a b : WorkflowSummary.t) :
  summary_less a b = true <-> key_lt a b.
Proof.
  unfold summary_less, key_lt.
  destruct (String.eqb_spec (WorkflowSummary.Source a) (WorkflowSummary.Source b))
    as [E|N]; simpl; rewrite string_ltb_lt.
  - split; [intros H; right; now split|].
    intros [H|[_ H]]; [|exact H].
    rewrite E in H. now apply string_lt_irrefl in H.
  - split; [now left|]. intros [H|[E _]]; [exact H|contradiction].
Qed.

Lemma key_lt_irrefl (a : WorkflowSummary.t) : ~ key_lt a a.
Proof. intros [H|[_ H]]; now apply string_lt_irrefl in H. Qed.

Lemma key_lt_trans (a b c : WorkflowSummary.t) :
  key_lt a b -> key_lt b c -> key_lt a c.
Proof.
  intros [H1|[E1 H1]] [H2|[E2 H2]].
  - left. eapply string_lt_trans; eassumption.
  - left. now rewrite <- E2.
  - left. now rewrite E1.
  - right. split; [congruence|]. eapply string_lt_trans; eassumption.
Qed.

Lemma key_trichotomy (a b : WorkflowSummary.t) :
  key_lt a b \/ key_eq a b \/ key_lt b a.
Proof.
  unfold key_lt, key_eq.
  destruct (string_trichotomy (WorkflowSummary.Source a) (WorkflowSummary.Source b))
    as [H|[E|H]]; [now left; left| |now right; right; left].
  destruct (string_trichotomy (WorkflowSummary.Workflow a)
              (WorkflowSummary.Workflow b)) as [H|[E'|H]].
  - left; right. now split.
  - right; left. now split.
  - right; right; right. now split.
Qed.

Lemma key_lt_eq_l (a b c : WorkflowSummary.t) :
  key_eq a b -> key_lt a c -> key_lt b c.
Proof. unfold key_eq, key_lt. intros [E1 E2]. now rewrite E1, E2. Qed.

Lemma key_lt_eq_r (a b c : WorkflowSummary.t) :
  key_eq b c -> key_lt a b -> key_lt a c.
Proof. unfold key_eq, key_lt. intros [E1 E2]. now rewrite E1, E2. Qed.

Lemma summary_less_false (a b : WorkflowSummary.t) :
  summary_less a b = false <-> key_eq a b \/ key_lt b a.
Proof.
  split.
  - intros H. destruct (key_trichotomy a b) as [L|[E|G]]; auto.
    apply summary_less_key_lt in L. congruence.
  - intros H. destruct (summary_less a b) eqn:L; [|reflexivity].
    apply summary_less_key_lt in L. exfalso. destruct H as [E|G].
    + apply (key_lt_irrefl (a := b)). eapply key_lt_eq_l; eassumption.
    + apply (key_lt_irrefl (a := a)). eapply key_lt_trans; eassumption.
Qed.

Lemma summary_less_ordering : StrictWeakOrdering summary_less.
Proof.
  constructor.
  - intros a. apply summary_less_false. left. now split.
  - intros a b c. rewrite !summary_less_key_lt. apply key_lt_trans.
  - intros a b c. rewrite !summary_less_false.
    intros [[E1 E2]|G1] [[E3 E4]|G2].
    + left. split; congruence.
    + right. eapply key_lt_eq_r; [|eassumption].
      split; symmetry; assumption.
    + right. eapply key_lt_eq_l; [|eassumption].
      split; assumption.
    + right. eapply key_lt_trans; eassumption.
Qed.

(** ** The workflow inspector *)

Lemma hasRunLog_has_summary (logs : list LogEntry.t) :
  hasRunLog logs = has_summary logs.
Proof.
  induction logs as [|log logs IH]; simpl; [reflexivity|].
  rewrite IH. now destruct (String.eqb (LogEntry.LogType log) "run.log").
Qed.

(** The aggregate flag follows the logs through every iteration. *)
Lemma scanWorkflow_step_flag s source date workflow path summary logType :
  WorkflowSummary.HasErrors summary = any_error (WorkflowSummary.Logs summary) ->
  let summary' := scanWorkflow_step s source date workflow path summary logType in
  WorkflowSummary.HasErrors summary' = any_error (WorkflowSummary.Logs summary').
Proof.
  intros Inv. unfold scanWorkflow_step.
  destruct (match os_Stat os (filepath_Join [path; logType]) with
            | Ok _ => false
            | Err e => os_IsNotExist e
            end); [exact Inv|].
  destruct (scanLogFile s source date workflow logType
              (filepath_Join [path; logType])) as [entry|e]; [|exact Inv].
  unfold any_error in *.
  destruct (LogEntry.HasErrors entry) eqn:He; simpl;
    rewrite existsb_app; simpl; rewrite He.
  - now rewrite orb_true_r.
  - now rewrite Inv, !orb_false_r.
Qed.

Lemma scanWorkflow_loop_flag s source date workflow path types summary :
  WorkflowSummary.HasErrors summary = any_error (WorkflowSummary.Logs summary) ->
  let summary' :=
    fold_left (scanWorkflow_step s source date workflow path) types summary in
  WorkflowSummary.HasErrors summary' = any_error (WorkflowSummary.Logs summary').
Proof.
  revert summary. induction types as [|logType types IH]; intros summary Inv.
  - exact Inv.
  - simpl. apply IH. now apply scanWorkflow_step_flag.
Qed.

(** [scanWorkflow] always returns a summary; its flag is the disjunction
    over its logs, and its status is the one computed from its own flag
    and logs. *)
Lemma scanWorkflow_returns s source date workflow :
  exists run,
    scanWorkflow s source date workflow = Ok run
    /\ WorkflowSummary.HasErrors run = any_error (WorkflowSummary.Logs run)
    /\ WorkflowSummary.Status run = determineWorkflowStatus s run.
Proof.
  unfold scanWorkflow. eexists. split; [reflexivity|]. split.
  - exact (scanWorkflow_loop_flag s source date workflow _ logTypes
             (WorkflowSummary.mk source date workflow [] false "Unknown")
             eq_refl).
  - reflexivity.
Qed.

Lemma determineWorkflowStatus_table s run :
  WorkflowSummary.HasErrors run = any_error (WorkflowSummary.Logs run) ->
  (any_error (WorkflowSummary.Logs run) = true ->
     determineWorkflowStatus s run = "Failed")
  /\ (any_error (WorkflowSummary.Logs run) = false ->
      WorkflowSummary.Logs run = [] ->
      determineWorkflowStatus s run = "No Logs")
  /\ (any_error (WorkflowSummary.Logs run) = false ->
      WorkflowSummary.Logs run <> [] ->
      has_summary (WorkflowSummary.Logs run) = true ->
      determineWorkflowStatus s run = "Completed")
  /\ (any_error (WorkflowSummary.Logs run) = false ->
      WorkflowSummary.Logs run <> [] ->
      has_summary (WorkflowSummary.Logs run) = false ->
      determineWorkflowStatus s run = "In Progress").
Proof.
  intros Flag. unfold determineWorkflowStatus.
  rewrite hasRunLog_has_summary, Flag.
  destruct (WorkflowSummary.Logs run) as [|log logs].
  - simpl. repeat split; intros; congruence.
  - generalize (any_error (log :: logs)) (has_summary (log :: logs)).
    intros [] []; simpl; repeat split; intros; congruence.
Qed.

(** ** From loops to lists *)

Lemma fold_left_collect (A B : Type) (F : list A -> B -> list A)
    (g : B -> list A) :
  (forall acc x, F acc x = acc ++ g x) ->
  forall l acc, fold_left F l acc = acc ++ flat_map g l.
Proof.
  intros HF. induction l as [|x l IH]; intros acc; simpl.
  - now rewrite app_nil_r.
  - now rewrite IH, HF, app_assoc.
Qed.

Lemma scanSourceForDate_eq s source date :
  scanSourceForDate s source date =
  if match os_Stat os (filepath_Join [nfsRoot s; source; date]) with
     | Ok _ => false
     | Err e => os_IsNotExist e
     end
  then Ok []
  else match os_ReadDir os (filepath_Join [nfsRoot s; source; date]) with
       | Err e => Err e
       | Ok entries =>
           Ok (flat_map (runs_of_workflow s source date)
                 (directory_names entries))
       end.
Proof.
  unfold scanSourceForDate, getWorkflowDirectories. cbv zeta.
  destruct (match os_Stat os _ with Ok _ => false | Err e => os_IsNotExist e end);
    [reflexivity|].
  destruct (os_ReadDir os _) as [entries|e]; [|reflexivity].
  rewrite fold_left_collect with (g := runs_of_workflow s source date);
    [reflexivity|].
  intros acc workflow. unfold runs_of_workflow.
  destruct (scanWorkflow s source date workflow);
    [reflexivity|now rewrite app_nil_r].
Qed.

Lemma ScanLogsForDate_eq s date :
  ScanLogsForDate s date =
  match os_ReadDir os (nfsRoot s) with
  | Err e => Err (Errorf "failed to get source directories" e)
  | Ok entries =>
      Ok (sort_Slice
            (flat_map (runs_of_source s date) (directory_names entries))
            summary_less)
  end.
Proof.
  unfold ScanLogsForDate, getSourceDirectories.
  destruct (os_ReadDir os (nfsRoot s)) as [entries|e]; [|reflexivity].
  rewrite fold_left_collect with (g := runs_of_source s date);
    [reflexivity|].
  intros acc source. unfold runs_of_source.
  destruct (scanSourceForDate s source date);
    [reflexivity|now rewrite app_nil_r].
Qed.

(** Every run a scan returns was built by [scanWorkflow]. *)
Lemma ScanLogsForDate_runs s date summaries run :
  ScanLogsForDate s date = Ok summaries ->
  In run summaries ->
  exists source workflow, scanWorkflow s source date workflow = Ok run.
Proof.
  rewrite ScanLogsForDate_eq.
  destruct (os_ReadDir os (nfsRoot s)) as [entries|e]; [|discriminate].
  intros [= <-] Hin.
  destruct (sort_Slice_sorts
              (flat_map (runs_of_source s date) (directory_names entries))
              summary_less_ordering) as [Perm _].
  apply (Permutation_in _ (Permutation_sym Perm)) in Hin.
  apply in_flat_map in Hin. destruct Hin as (source & _ & Hin).
  unfold runs_of_source in Hin. rewrite scanSourceForDate_eq in Hin.
  destruct (match os_Stat os _ with Ok _ => false | Err e => os_IsNotExist e end);
    [contradiction|].
  destruct (os_ReadDir os _) as [wfs|e]; [|contradiction].
  apply in_flat_map in Hin. destruct Hin as (workflow & _ & Hin).
  exists source, workflow. unfold runs_of_workflow in Hin.
  destruct (scanWorkflow s source date workflow) as [run'|e];
    [|contradiction].
  destruct Hin as [->|[]]. reflexivity.
Qed.

Lemma ScanLogsForDate_Forall s date summaries (P : WorkflowSummary.t -> Prop) :
  (forall source workflow run,
      scanWorkflow s source date workflow = Ok run -> P run) ->
  ScanLogsForDate s date = Ok summaries ->
  Forall P summaries.
Proof.
  intros HP Hscan. apply Forall_forall. intros run Hin.
  destruct (@ScanLogsForDate_runs s date summaries run Hscan Hin)
    as (source & workflow & Hrun).
  eapply HP; eassumption.
Qed.

Lemma determineWorkflowStatus_valid s run :
  In (determineWorkflowStatus s run) valid_statuses.
Proof.
  unfold determineWorkflowStatus, valid_statuses.
  destruct (WorkflowSummary.HasErrors run); [simpl; tauto|].
  destruct (List.length (WorkflowSummary.Logs run) =? 0)%nat; [simpl; tauto|].
  destruct (hasRunLog (WorkflowSummary.Logs run) && negb false);
    simpl; tauto.
Qed.

Lemma Sorted_adjacent (A : Type) (R : A -> A -> Prop) (l : list A) :
  Sorted R l ->
  forall i a b,
    nth_error l i = Some a -> nth_error l (S i) = Some b -> R a b.
Proof.
  induction 1 as [|x l Hsorted IH Hhd]; intros i a b Ha Hb.
  - destruct i; discriminate.
  - destruct i as [|i].
    + simpl in Ha, Hb. injection Ha as <-.
      destruct l as [|y l]; [discriminate|].
      simpl in Hb. injection Hb as <-. now inversion Hhd.
    + simpl in Ha. eapply IH; [exact Ha|exact Hb].
Qed.

Lemma not_less_ordered (a b : WorkflowSummary.t) :
  summary_less b a = false -> ordered_pair a b.
Proof.
  intros H. apply summary_less_false in H. unfold ordered_pair.
  destruct H as [[E1 E2]|[L|[E L]]].
  - right. split; [congruence|].
    unfold String.leb. now rewrite E2, string_compare_refl.
  - left. now apply string_ltb_lt.
  - right. split; [assumption|]. unfold String.leb. now rewrite L.
Qed.

(** ** The content accessor *)

Lemma NewScanner_tokens (data : string) :
  (pending (NewScanner data), failure (NewScanner data))
  = scan_tokens (raw_lines data).
Proof. unfold NewScanner. now destruct (scan_tokens (raw_lines data)). Qed.

Lemma read_loop_unbounded tokens fail lineCount lines :
  read_loop tokens fail 0 lineCount lines = (lines ++ tokens, fail).
Proof.
  revert lineCount lines.
  induction tokens as [|token rest IH]; intros lineCount lines; simpl.
  - now rewrite app_nil_r.
  - now rewrite IH, <- app_assoc.
Qed.

Lemma read_loop_bounded tokens fail maxLines lineCount lines :
  (0 < maxLines)%Z -> (0 <= lineCount <= maxLines)%Z ->
  read_loop tokens fail maxLines lineCount lines
  = (lines ++ firstn (Z.to_nat (maxLines - lineCount)) tokens,
     if (List.length tokens <=? Z.to_nat (maxLines - lineCount))%nat
     then fail else None).
Proof.
  intros Hmax. revert lineCount lines.
  induction tokens as [|token rest IH]; intros lineCount lines Hcount; simpl.
  - now rewrite firstn_nil, app_nil_r.
  - replace (maxLines =? 0)%Z with false by (symmetry; apply Z.eqb_neq; lia).
    simpl. destruct (lineCount <? maxLines)%Z eqn:Hlt.
    + apply Z.ltb_lt in Hlt. rewrite IH by lia.
      replace (Z.to_nat (maxLines - lineCount))
        with (S (Z.to_nat (maxLines - (lineCount + 1)))) by lia.
      simpl. now rewrite <- app_assoc.
    + apply Z.ltb_ge in Hlt.
      replace (maxLines - lineCount)%Z with 0%Z by lia.
      simpl. now rewrite app_nil_r.
Qed.

Lemma GetLogContent_unbounded s path :
  GetLogContent s path 0 =
  match os_Open os path with
  | Err e => ([], Some e)
  | Ok data => scan_tokens (raw_lines data)
  end.
Proof.
  unfold GetLogContent. destruct (os_Open os path) as [data|e]; [|reflexivity].
  rewrite read_loop_unbounded. apply NewScanner_tokens.
Qed.

Lemma GetLogContent_capped s path :
  GetLogContent s path 1000 =
  match os_Open os path with
  | Err e => ([], Some e)
  | Ok data =>
      (firstn 1000 (fst (scan_tokens (raw_lines data))),
       if (List.length (fst (scan_tokens (raw_lines data))) <=? 1000)%nat
       then snd (scan_tokens (raw_lines data)) else None)
  end.
Proof.
  unfold GetLogContent. destruct (os_Open os path) as [data|e]; [|reflexivity].
  rewrite read_loop_bounded by lia. rewrite <- NewScanner_tokens. reflexivity.
Qed.

Lemma first_match_find keyword content :
  first_match keyword content = find (line_matches keyword) content.
Proof.
  induction content as [|line rest IH]; simpl; [reflexivity|].
  unfold line_matches at 1. now rewrite IH.
Qed.

Lemma find_first (A : Type) (f : A -> bool) (l : list A) :
  match find f l with
  | Some x =>
      exists before after,
        l = before ++ x :: after
        /\ Forall (fun y => f y = false) before
        /\ f x = true
  | None => Forall (fun y => f y = false) l
  end.
Proof.
  induction l as [|y l IH]; simpl; [constructor|].
  destruct (f y) eqn:Hy.
  - exists [], l. repeat split; [constructor|exact Hy].
  - destruct (find f l) as [x|].
    + destruct IH as (before & after & -> & Hbefore & Hx).
      exists (y :: before), after. repeat split; [now constructor|exact Hx].
    + now constructor.
Qed.

Lemma search_log_search_file s keyword results logEntry :
  search_log s keyword results logEntry
  = results ++ search_file s keyword logEntry.
Proof.
  unfold search_log, search_file.
  destruct (GetLogContent s (LogEntry.FilePath logEntry) 1000)
    as [content [e|]]; [now rewrite app_nil_r|].
  rewrite first_match_find.
  destruct (find (line_matches keyword) content);
    [reflexivity|now rewrite app_nil_r].
Qed.

Lemma flat_map_flat_map (A B C : Type) (f : A -> list B) (g : B -> list C)
    (l : list A) :
  flat_map (fun x => flat_map g (f x)) l = flat_map g (flat_map f l).
Proof.
  induction l as [|x l IH]; simpl; [reflexivity|].
  now rewrite flat_map_app, IH.
Qed.

Lemma search_summaries_flat_map s keyword summaries :
  search_summaries s keyword summaries
  = flat_map (search_file s keyword)
      (flat_map WorkflowSummary.Logs summaries).
Proof.
  unfold search_summaries.
  rewrite fold_left_collect
    with (g := fun summary =>
                 flat_map (search_file s keyword) (WorkflowSummary.Logs summary)).
  - simpl. apply flat_map_flat_map.
  - intros acc summary. apply fold_left_collect.
    intros acc' logEntry. apply search_log_search_file.
Qed.

(** The error-log branch of [detectErrors] looks at the first line only. *)
Lemma detectErrors_error_log s path data :
  os_Open os path = Ok data ->
  detectErrors s path "error.log" =
  match scan_tokens (raw_lines data) with
  | (line :: _, _) => ((0 <? String.length (TrimSpace line))%nat, None)
  | ([], fail) => (false, fail)
  end.
Proof.
  intros Hopen. unfold detectErrors. rewrite Hopen. simpl.
  unfold Scan. pose proof (NewScanner_tokens data) as H.
  destruct (scan_tokens (raw_lines data)) as [[|line rest] fail];
    injection H as -> ->; reflexivity.
Qed.

(** An empty [error.log] signals no error. *)
Lemma detectErrors_empty_error_log s path :
  os_Open os path = Ok EmptyString ->
  detectErrors s path "error.log" = (false, None).
Proof. intros Hopen. now rewrite (detectErrors_error_log s _ Hopen). Qed.

(** ** The claims *)

(** C1: the status of a scanned workflow directory follows the precedence
    Failed, No Logs, Completed, In Progress: it is Failed as soon as one of
    the logs found signals an error, also when [run.log] is among them;
    without an error it is No Logs when no log was found, Completed when
    [run.log] was found, and In Progress otherwise. *)
Theorem workflow_status_precedence (s : Scanner) (source date workflow : string) :
  exists run,
    scanWorkflow s source date workflow = Ok run
    /\ (any_error (WorkflowSummary.Logs run) = true ->
        WorkflowSummary.Status run = "Failed")
    /\ (any_error (WorkflowSummary.Logs run) = false ->
        WorkflowSummary.Logs run = [] ->
        WorkflowSummary.Status run = "No Logs")
    /\ (any_error (WorkflowSummary.Logs run) = false ->
        WorkflowSummary.Logs run <> [] ->
        has_summary (WorkflowSummary.Logs run) = true ->
        WorkflowSummary.Status run = "Completed")
    /\ (any_error (WorkflowSummary.Logs run) = false ->
        WorkflowSummary.Logs run <> [] ->
        has_summary (WorkflowSummary.Logs run) = false ->
        WorkflowSummary.Status run = "In Progress").
Proof.
  destruct (scanWorkflow_returns s source date workflow)
    as (run & Hrun & Hflag & Hstatus).
  exists run. split; [exact Hrun|].
  rewrite Hstatus. now apply determineWorkflowStatus_table.
Qed.

(** C3: in every run a scan produces, the aggregate flag [HasErrors] is the
    disjunction of the [HasErrors] flags of the logs of the run; this holds
    of what [scanWorkflow] returns and of every element of the result of
    [ScanLogsForDate]. *)
Theorem has_errors_is_disjunction (s : Scanner) (date : string) :
  (forall source workflow,
      exists run,
        scanWorkflow s source date workflow = Ok run
        /\ WorkflowSummary.HasErrors run
           = existsb LogEntry.HasErrors (WorkflowSummary.Logs run))
  /\ (forall summaries,
         ScanLogsForDate s date = Ok summaries ->
         Forall (fun run =>
                   WorkflowSummary.HasErrors run
                   = existsb LogEntry.HasErrors (WorkflowSummary.Logs run))
                summaries).
Proof.
  split.
  - intros source workflow.
    destruct (scanWorkflow_returns s source date workflow)
      as (run & Hrun & Hflag & _).
    exists run. now split.
  - intros summaries. apply ScanLogsForDate_Forall.
    intros source workflow run Hrun.
    destruct (scanWorkflow_returns s source date workflow)
      as (run' & Hrun' & Hflag & _).
    assert (run' = run) as -> by congruence. exact Hflag.
Qed.

(** C4: in the result of a scan, any two adjacent runs are in order: the
    source of the first is below the source of the second, or the sources
    are equal and the workflow of the first is not above that of the
    second, in the byte-wise order of strings; this is so whatever order
    the file system lists the directories in. *)
Theorem scan_result_sorted (s : Scanner) (date : string)
    (summaries : list WorkflowSummary.t) :
  ScanLogsForDate s date = Ok summaries ->
  forall i a b,
    nth_error summaries i = Some a ->
    nth_error summaries (S i) = Some b ->
    ordered_pair a b.
Proof.
  rewrite ScanLogsForDate_eq.
  destruct (os_ReadDir os (nfsRoot s)) as [entries|e]; [|discriminate].
  intros [= <-] i a b Ha Hb.
  destruct (sort_Slice_sorts
              (flat_map (runs_of_source s date) (directory_names entries))
              summary_less_ordering) as [_ Hsorted].
  apply not_less_ordered.
  eapply (Sorted_adjacent Hsorted); eassumption.
Qed.

(** C5: a scan fails only when the root cannot be listed; when the root is
    listed, the scan returns the runs of its sources, in some order, a
    source whose scan fails adding none and not stopping the others. *)
Theorem scan_isolates_failing_sources (s : Scanner) (date : string) :
  (forall e,
      os_ReadDir os (nfsRoot s) = Err e ->
      ScanLogsForDate s date = Err (Errorf "failed to get source directories" e))
  /\ (forall entries,
         os_ReadDir os (nfsRoot s) = Ok entries ->
         exists summaries,
           ScanLogsForDate s date = Ok summaries
           /\ Permutation
                (flat_map (runs_of_source s date) (directory_names entries))
                summaries)
  /\ (forall source e,
         scanSourceForDate s source date = Err e ->
         runs_of_source s date source = [])
  /\ (forall e,
         ScanLogsForDate s date = Err e ->
         exists e0, os_ReadDir os (nfsRoot s) = Err e0).
Proof.
  rewrite ScanLogsForDate_eq. repeat split.
  - intros e ->. reflexivity.
  - intros entries ->. eexists. split; [reflexivity|].
    apply sort_Slice_sorts, summary_less_ordering.
  - intros source e H. unfold runs_of_source. now rewrite H.
  - intros e. destruct (os_ReadDir os (nfsRoot s)) as [entries|e0];
      [discriminate|]. intros _. now exists e0.
Qed.

(** C7: when the date directory of a source does not exist, the scan of
    that source returns the empty list and no error. *)
Theorem missing_date_directory_is_empty (s : Scanner) (source date : string)
    (e : error) :
  os_Stat os (filepath_Join [nfsRoot s; source; date]) = Err e ->
  os_IsNotExist e = true ->
  scanSourceForDate s source date = Ok [].
Proof.
  intros Hstat Hmissing. unfold scanSourceForDate.
  now rewrite Hstat, Hmissing.
Qed.

(** C10: every summary a scan returns has one of the four statuses Failed,
    No Logs, Completed and In Progress, and never the initial Unknown; this
    holds of what [scanWorkflow] returns and of every element of the result
    of [ScanLogsForDate]. *)
Theorem status_is_one_of_four (s : Scanner) (date : string) :
  (forall source workflow,
      exists run,
        scanWorkflow s source date workflow = Ok run
        /\ In (WorkflowSummary.Status run) valid_statuses
        /\ WorkflowSummary.Status run <> "Unknown")
  /\ (forall summaries,
         ScanLogsForDate s date = Ok summaries ->
         Forall (fun run =>
                   In (WorkflowSummary.Status run) valid_statuses
                   /\ WorkflowSummary.Status run <> "Unknown")
                summaries).
Proof.
  assert (Hvalid : forall source workflow run,
             scanWorkflow s source date workflow = Ok run ->
             In (WorkflowSummary.Status run) valid_statuses
             /\ WorkflowSummary.Status run <> "Unknown").
  { intros source workflow run Hrun.
    destruct (scanWorkflow_returns s source date workflow)
      as (run' & Hrun' & _ & Hstatus).
    assert (run' = run) as -> by congruence.
    rewrite Hstatus.
    pose proof (determineWorkflowStatus_valid s run) as Hin.
    split; [exact Hin|].
    intros Heq. rewrite Heq in Hin.
    destruct Hin as [H|[H|[H|[H|[]]]]]; discriminate. }
  split.
  - intros source workflow.
    destruct (scanWorkflow_returns s source date workflow)
      as (run & Hrun & _).
    exists run. split; [exact Hrun|]. eapply Hvalid; eassumption.
  - intros summaries. apply ScanLogsForDate_Forall. exact Hvalid.
Qed.

(** C6, as amended: neither [ScanLogsForDate] nor [SearchLogs] validates
    its argument; whatever the date string and whatever the keyword, each
    fails exactly when the root directory cannot be listed. *)
Theorem scan_and_search_do_not_validate (s : Scanner) (date keyword : string) :
  ((exists e, ScanLogsForDate s date = Err e)
   <-> (exists e, os_ReadDir os (nfsRoot s) = Err e))
  /\ ((exists e, SearchLogs s keyword = Err e)
      <-> (exists e, os_ReadDir os (nfsRoot s) = Err e)).
Proof.
  unfold SearchLogs, ScanTodaysLogs. rewrite !ScanLogsForDate_eq.
  destruct (os_ReadDir os (nfsRoot s)) as [entries|e0]; split; split;
    intros [e H]; try discriminate; eauto.
Qed.

(** C8, as amended: [SearchLogs] takes a keyword and no date; it scans
    today's date and, for every log of every run of that scan, reads at most
    the first 1000 lines and reports at most one entry for the file, holding
    the first of these lines that contains the keyword, both in lower
    case; a file that cannot be read that far is passed over. *)
Theorem search_reports_first_match_per_file (s : Scanner) (keyword : string) :
  SearchLogs s keyword = search_on_date s keyword (time_Today os)
  /\ (forall path,
         (List.length (fst (GetLogContent s path 1000)) <= 1000)%nat
         /\ fst (GetLogContent s path 1000)
            = firstn 1000 (fst (GetLogContent s path 0)))
  /\ (forall logEntry,
         (List.length (search_file s keyword logEntry) <= 1)%nat)
  /\ (forall logEntry content,
         GetLogContent s (LogEntry.FilePath logEntry) 1000 = (content, None) ->
         (search_file s keyword logEntry = []
          /\ Forall (fun line => line_matches keyword line = false) content)
         \/ (exists before line after,
                content = before ++ line :: after
                /\ Forall (fun l => line_matches keyword l = false) before
                /\ line_matches keyword line = true
                /\ search_file s keyword logEntry
                   = [LogEntry.with_Content logEntry line])).
Proof.
  split; [|split; [|split]].
  - unfold SearchLogs, ScanTodaysLogs, search_on_date.
    destruct (ScanLogsForDate s (time_Today os)) as [summaries|e];
      [|reflexivity].
    now rewrite search_summaries_flat_map.
  - intros path. rewrite GetLogContent_capped, GetLogContent_unbounded.
    destruct (os_Open os path); cbn [fst List.length]; split;
      [apply firstn_le_length|reflexivity|apply Nat.le_0_l|reflexivity].
  - intros logEntry. unfold search_file.
    destruct (GetLogContent s (LogEntry.FilePath logEntry) 1000)
      as [content [e|]]; simpl; [lia|].
    destruct (find (line_matches keyword) content); simpl; lia.
  - intros logEntry content Hread. unfold search_file. rewrite Hread.
    pose proof (find_first (line_matches keyword) content) as Hfind.
    destruct (find (line_matches keyword) content) as [line|].
    + right. destruct Hfind as (before & after & Hsplit & Hbefore & Hline).
      exists before, line, after. now repeat split.
    + left. now split.
Qed.

(** C9, as amended: for a file that opens and whose lines all fit the
    scanner, and for [n] not negative, [GetLogTail] returns the last [n]
    lines of the file in file order: a suffix of the lines of the file, of length [n] or of the
    length of the file when that is smaller, hence all the lines when the
    file has no more than [n]. *)
Theorem tail_returns_last_lines (s : Scanner) (path data : string) (n : Z)
    (all : list string) :
  os_Open os path = Ok data ->
  scan_tokens (raw_lines data) = (all, None) ->
  (0 <= n)%Z ->
  exists tail,
    GetLogTail s path n = Returns (Ok tail)
    /\ (exists front, all = front ++ tail)
    /\ List.length tail = Nat.min (Z.to_nat n) (List.length all)
    /\ ((Z.of_nat (List.length all) <= n)%Z -> tail = all).
Proof.
  intros Hopen Hscan Hn. unfold GetLogTail.
  rewrite GetLogContent_unbounded, Hopen, Hscan. unfold slice_from.
  destruct (Z.of_nat (List.length all) >? n)%Z eqn:Hgt.
  - apply Z.gtb_lt in Hgt.
    replace ((0 <=? Z.of_nat (List.length all) - n)%Z
             && (Z.of_nat (List.length all) - n
                 <=? Z.of_nat (List.length all))%Z) with true
      by (symmetry; apply andb_true_iff; split; apply Z.leb_le; lia).
    eexists. split; [reflexivity|]. split; [|split].
    + exists (firstn (Z.to_nat (Z.of_nat (List.length all) - n)) all).
      now rewrite firstn_skipn.
    + rewrite length_skipn. lia.
    + lia.
  - assert (Hle : (Z.of_nat (List.length all) <= n)%Z).
    { destruct (Z.gtb_spec (Z.of_nat (List.length all)) n);
        [discriminate|assumption]. }
    simpl.
    replace (0 <=? Z.of_nat (List.length all))%Z with true
      by (symmetry; apply Z.leb_le; lia).
    exists all. split; [reflexivity|]. split; [|split].
    + now exists [].
    + lia.
    + reflexivity.
Qed.

(** ** Further properties of the scanner *)

Lemma prefix_app (p s : string) :
  String.prefix p s = true <-> exists post, s = String.append p post.
Proof.
  revert s. induction p as [|a p IH]; intros s.
  - split; [intros _; now exists s|intros _; now destruct s].
  - destruct s as [|b s]; simpl.
    + split; [discriminate|intros [post H]; discriminate].
    + destruct (ascii_dec a b) as [<-|Hab].
      * rewrite IH. split; intros [post H]; exists post; congruence.
      * split; [discriminate|]. intros [post H]. congruence.
Qed.

Lemma Contains_substring (s substr : string) :
  Contains s substr = true
  <-> exists pre post, s = String.append pre (String.append substr post).
Proof.
  induction s as [|c s IH].
  - cbn [Contains]. destruct (String.prefix substr EmptyString) eqn:Hp.
    + split; [intros _|intros _; reflexivity].
      apply prefix_app in Hp. destruct Hp as [post Hp]. now exists EmptyString, post.
    + split; [discriminate|]. intros ([|c pre] & post & H); [|discriminate].
      assert (String.prefix substr EmptyString = true)
        by (apply prefix_app; now exists post).
      congruence.
  - cbn [Contains]. destruct (String.prefix substr (String c s)) eqn:Hp.
    + split; [intros _|intros _; reflexivity].
      apply prefix_app in Hp. destruct Hp as [post Hp]. now exists EmptyString, post.
    + rewrite IH. split.
      * intros (pre & post & ->). now exists (String c pre), post.
      * intros ([|c' pre] & post & H).
        -- assert (String.prefix substr (String c s) = true)
             by (apply prefix_app; now exists post).
           congruence.
        -- simpl in H. injection H as _ H. now exists pre, post.
Qed.

Lemma detect_patterns_exists (lines : list string) :
  detect_patterns lines = true
  <-> exists line pattern,
        In line lines /\ In pattern errorPatterns
        /\ Contains line pattern = true.
Proof.
  induction lines as [|line rest IH]; cbn [detect_patterns].
  - split; [discriminate|]. intros (line & pattern & [] & _).
  - destruct (existsb (fun pattern => Contains line pattern) errorPatterns)
      eqn:Hhere.
    + split; [intros _|intros _; reflexivity].
      apply existsb_exists in Hhere. destruct Hhere as (pattern & Hin & Hc).
      exists line, pattern. repeat split; [now left|assumption|assumption].
    + rewrite IH. split.
      * intros (l & pattern & Hl & Hp & Hc). exists l, pattern.
        repeat split; [now right|assumption|assumption].
      * intros (l & pattern & [<-|Hl] & Hp & Hc).
        -- assert (existsb (fun pattern => Contains line pattern) errorPatterns
                   = true) by (apply existsb_exists; now exists pattern).
           congruence.
        -- now exists l, pattern.
Qed.

Lemma scanWorkflow_step_found s source date workflow summary logType :
  scanWorkflow_step s source date workflow
    (filepath_Join [nfsRoot s; source; date; workflow]) summary logType
  = let logs := WorkflowSummary.Logs summary
                ++ found_log s source date workflow logType in
    WorkflowSummary.mk
      (WorkflowSummary.Source summary) (WorkflowSummary.Date summary)
      (WorkflowSummary.Workflow summary) logs
      (WorkflowSummary.HasErrors summary
       || any_error (found_log s source date workflow logType))
      (WorkflowSummary.Status summary).
Proof.
  unfold scanWorkflow_step, found_log, log_path, scanLogFile. cbv zeta.
  destruct summary as [src dt wf logs flag status]; simpl.
  destruct (os_Stat os _) as [info|e]; simpl.
  - destruct (detectErrors s _ logType) as [hasErrors [e|]]; simpl.
    + now rewrite app_nil_r, orb_false_r.
    + destruct hasErrors; simpl;
        [now rewrite orb_true_r|now rewrite orb_false_r].
  - rewrite app_nil_r, orb_false_r. now destruct (os_IsNotExist e).
Qed.

Lemma scanWorkflow_loop_found s source date workflow types summary :
  let summary' :=
    fold_left
      (scanWorkflow_step s source date workflow
         (filepath_Join [nfsRoot s; source; date; workflow]))
      types summary in
  WorkflowSummary.Logs summary'
  = WorkflowSummary.Logs summary
    ++ flat_map (found_log s source date workflow) types
  /\ WorkflowSummary.Source summary' = WorkflowSummary.Source summary
  /\ WorkflowSummary.Date summary' = WorkflowSummary.Date summary
  /\ WorkflowSummary.Workflow summary' = WorkflowSummary.Workflow summary.
Proof.
  revert summary. induction types as [|logType types IH]; intros summary.
  - simpl. now rewrite app_nil_r.
  - cbn [fold_left flat_map]. destruct (IH
      (scanWorkflow_step s source date workflow
         (filepath_Join [nfsRoot s; source; date; workflow]) summary logType))
      as (Hlogs & Hsrc & Hdate & Hwf).
    rewrite Hlogs, Hsrc, Hdate, Hwf, scanWorkflow_step_found. simpl.
    now rewrite <- app_assoc.
Qed.

(** The run of a workflow directory, field by field. *)
Lemma scanWorkflow_fields s source date workflow run :
  scanWorkflow s source date workflow = Ok run ->
  WorkflowSummary.Source run = source
  /\ WorkflowSummary.Date run = date
  /\ WorkflowSummary.Workflow run = workflow
  /\ WorkflowSummary.Logs run
     = flat_map (found_log s source date workflow) logTypes.
Proof.
  unfold scanWorkflow. cbv zeta. intros [= <-].
  pose proof (scanWorkflow_loop_found s source date workflow logTypes
                (WorkflowSummary.mk source date workflow [] false "Unknown"))
    as H.
  cbv zeta in H. destruct H as (Hlogs & Hsrc & Hdate & Hwf).
  repeat split; [exact Hsrc|exact Hdate|exact Hwf|exact Hlogs].
Qed.

Lemma found_log_readable s source date workflow logType :
  map LogEntry.LogType (found_log s source date workflow logType)
  = if log_readable s source date workflow logType then [logType] else [].
Proof.
  unfold found_log, log_readable, scanLogFile.
  destruct (os_Stat os _) as [info|e]; [|reflexivity].
  now destruct (detectErrors s _ logType) as [hasErrors [e|]].
Qed.

Lemma map_flat_map_filter (A B : Type) (f : B -> A) (g : A -> list B)
    (keep : A -> bool) (l : list A) :
  (forall x, map f (g x) = if keep x then [x] else []) ->
  map f (flat_map g l) = filter keep l.
Proof.
  intros H. induction l as [|x l IH]; simpl; [reflexivity|].
  rewrite map_app, H, IH. now destruct (keep x).
Qed.

Lemma runs_of_source_keys s date source :
  map run_key (runs_of_source s date source)
  = map (fun workflow => (source, date, workflow)) (workflow_dirs s source date).
Proof.
  unfold runs_of_source, workflow_dirs. rewrite scanSourceForDate_eq.
  destruct (match os_Stat os _ with Ok _ => false | Err e => os_IsNotExist e end);
    [reflexivity|].
  destruct (os_ReadDir os _) as [entries|e]; [|reflexivity].
  induction (directory_names entries) as [|workflow dirs IH]; [reflexivity|].
  cbn [flat_map map]. rewrite map_app, IH. unfold runs_of_workflow at 1.
  destruct (scanWorkflow_returns s source date workflow) as (run & Hrun & _).
  rewrite Hrun.
  destruct (scanWorkflow_fields Hrun) as (Hsrc & Hdate & Hwf & _).
  cbn [map app]. unfold run_key. now rewrite Hsrc, Hdate, Hwf.
Qed.

Lemma map_flat_map (A B C : Type) (f : B -> C) (g : A -> list B) (l : list A) :
  map f (flat_map g l) = flat_map (fun x => map f (g x)) l.
Proof.
  induction l as [|x l IH]; simpl; [reflexivity|]. now rewrite map_app, IH.
Qed.

Lemma NoDup_flat_map (A B : Type) (g : A -> list B) (l : list A) :
  NoDup l ->
  (forall x, In x l -> NoDup (g x)) ->
  (forall x y b, In b (g x) -> In b (g y) -> x = y) ->
  NoDup (flat_map g l).
Proof.
  intros Hl Hg Hdisjoint. induction Hl as [|x l Hx Hl IH]; simpl; [constructor|].
  apply NoDup_app.
  - apply Hg. now left.
  - apply IH. intros y Hy. apply Hg. now right.
  - intros b Hbx Hb. apply in_flat_map in Hb. destruct Hb as (y & Hy & Hby).
    apply Hx. now rewrite (Hdisjoint x y b Hbx Hby).
Qed.

(** X1: for a log that is not the error log, [detectErrors] signals an
    error exactly when one of the lines the scanner delivers contains one
    of the eight patterns as a substring, case as written; it then returns
    no error of its own, and otherwise returns what the scanner reports. *)
Theorem pattern_scan_signals_error (s : Scanner) (path logType data : string)
    (tokens : list string) (fail : option error) :
  os_Open os path = Ok data ->
  logType <> "error.log" ->
  scan_tokens (raw_lines data) = (tokens, fail) ->
  (fst (detectErrors s path logType) = true
   <-> exists line pattern pre post,
         In line tokens /\ In pattern errorPatterns
         /\ line = String.append pre (String.append pattern post))
  /\ (fst (detectErrors s path logType) = true ->
      snd (detectErrors s path logType) = None)
  /\ (fst (detectErrors s path logType) = false ->
      snd (detectErrors s path logType) = fail).
Proof.
  intros Hopen Hkind Hscan. unfold detectErrors. rewrite Hopen.
  apply String.eqb_neq in Hkind. rewrite Hkind.
  pose proof (NewScanner_tokens data) as Hnew. rewrite Hscan in Hnew.
  injection Hnew as -> ->.
  pose proof (detect_patterns_exists tokens) as Hdetect.
  destruct (detect_patterns tokens); cbn [fst snd].
  - split; [|split; [reflexivity|discriminate]].
    split; [intros _|reflexivity].
    destruct (proj1 Hdetect eq_refl) as (line & pattern & Hl & Hp & Hc).
    apply Contains_substring in Hc. destruct Hc as (pre & post & Hc).
    now exists line, pattern, pre, post.
  - split; [|split; [discriminate|reflexivity]].
    split; [discriminate|].
    intros (line & pattern & pre & post & Hl & Hp & Hc).
    apply Hdetect. exists line, pattern. repeat split; try assumption.
    apply Contains_substring. now exists pre, post.
Qed.

(** X2: the logs of a run are those of the three kinds [info.log],
    [error.log], [run.log] that [os.Stat] finds and [detectErrors] reads
    without an error, in that order and once each; a log that is missing
    or cannot be read is left out and the run is returned all the same. *)
Theorem run_holds_the_readable_logs_in_order (s : Scanner)
    (source date workflow : string) :
  exists run,
    scanWorkflow s source date workflow = Ok run
    /\ map LogEntry.LogType (WorkflowSummary.Logs run)
       = filter (log_readable s source date workflow)
           ["info.log"; "error.log"; "run.log"]
    /\ (List.length (WorkflowSummary.Logs run) <= 3)%nat.
Proof.
  destruct (scanWorkflow_returns s source date workflow) as (run & Hrun & _).
  exists run. split; [exact Hrun|].
  destruct (scanWorkflow_fields Hrun) as (_ & _ & _ & Hlogs).
  assert (Hmap : map LogEntry.LogType (WorkflowSummary.Logs run)
                 = filter (log_readable s source date workflow) logTypes).
  { rewrite Hlogs. apply map_flat_map_filter. apply found_log_readable. }
  split; [exact Hmap|].
  rewrite <- (length_map LogEntry.LogType), Hmap.
  apply (filter_length_le (log_readable s source date workflow) logTypes).
Qed.

(** X3: a run carries the source, date and workflow it was scanned for,
    and so does each of its logs; the path of a log is the workflow
    directory joined with its kind, its content is empty, its error flag is
    the verdict of [detectErrors] on that path and kind, and its size and
    time are those [os.Stat] gives for the path. *)
Theorem run_and_logs_carry_their_identity (s : Scanner)
    (source date workflow : string) :
  exists run,
    scanWorkflow s source date workflow = Ok run
    /\ run_key run = (source, date, workflow)
    /\ Forall
         (fun log =>
            LogEntry.Source log = source
            /\ LogEntry.Date log = date
            /\ LogEntry.Workflow log = workflow
            /\ In (LogEntry.LogType log) logTypes
            /\ LogEntry.FilePath log
               = log_path s source date workflow (LogEntry.LogType log)
            /\ LogEntry.Content log = EmptyString
            /\ LogEntry.HasErrors log
               = fst (detectErrors s (LogEntry.FilePath log)
                        (LogEntry.LogType log))
            /\ os_Stat os (LogEntry.FilePath log)
               = Ok (FileInfo.mk (LogEntry.Size log) (LogEntry.ModTime log)))
         (WorkflowSummary.Logs run).
Proof.
  destruct (scanWorkflow_returns s source date workflow) as (run & Hrun & _).
  exists run. split; [exact Hrun|].
  destruct (scanWorkflow_fields Hrun) as (Hsrc & Hdate & Hwf & Hlogs).
  split; [unfold run_key; now rewrite Hsrc, Hdate, Hwf|].
  rewrite Hlogs. apply Forall_flat_map, Forall_forall.
  intros logType Hkind. unfold found_log, scanLogFile.
  destruct (os_Stat os (log_path s source date workflow logType))
    as [[size time]|e] eqn:Hstat; [|constructor].
  destruct (detectErrors s (log_path s source date workflow logType) logType)
    as [hasErrors [e|]] eqn:Hdetect; constructor; [|constructor].
  cbn. rewrite Hdetect, Hstat. now repeat split.
Qed.

(** X4: the status of a run tells what was found: Failed exactly when the
    run has an error, No Logs exactly when it has no log, Completed
    exactly when it has no error and a [run.log], In Progress exactly when
    it has logs, no error and no [run.log]. *)
Theorem status_tells_what_was_found (s : Scanner)
    (source date workflow : string) :
  exists run,
    scanWorkflow s source date workflow = Ok run
    /\ (WorkflowSummary.Status run = "Failed"
        <-> WorkflowSummary.HasErrors run = true)
    /\ (WorkflowSummary.Status run = "No Logs"
        <-> WorkflowSummary.Logs run = [])
    /\ (WorkflowSummary.Status run = "Completed"
        <-> WorkflowSummary.HasErrors run = false
            /\ has_summary (WorkflowSummary.Logs run) = true)
    /\ (WorkflowSummary.Status run = "In Progress"
        <-> WorkflowSummary.HasErrors run = false
            /\ WorkflowSummary.Logs run <> []
            /\ has_summary (WorkflowSummary.Logs run) = false).
Proof.
  destruct (scanWorkflow_returns s source date workflow)
    as (run & Hrun & Hflag & Hstatus).
  exists run. split; [exact Hrun|].
  rewrite Hstatus. unfold determineWorkflowStatus.
  rewrite hasRunLog_has_summary, Hflag.
  destruct (WorkflowSummary.Logs run) as [|log logs].
  - simpl. repeat split; intros;
      repeat match goal with H : _ /\ _ |- _ => destruct H end;
      try discriminate; try reflexivity; congruence.
  - generalize (any_error (log :: logs)) (has_summary (log :: logs)).
    intros [] []; simpl; repeat split; intros;
      repeat match goal with H : _ /\ _ |- _ => destruct H end;
      try discriminate; try reflexivity; congruence.
Qed.

(** X5: a scan returns one run for each workflow directory of each
    source directory under the root, and no other: the keys (source, date,
    workflow) of its result are, up to order, the sources listed under the
    root paired with the directories listed under their date directory;
    entries that are not directories, and sources whose date directory is
    missing or cannot be listed, give no run. *)
Theorem scan_has_one_run_per_workflow_directory (s : Scanner) (date : string)
    (entries : list DirEntry.t) :
  os_ReadDir os (nfsRoot s) = Ok entries ->
  exists summaries,
    ScanLogsForDate s date = Ok summaries
    /\ Permutation
         (flat_map
            (fun source =>
               map (fun workflow => (source, date, workflow))
                 (workflow_dirs s source date))
            (map DirEntry.Name (filter DirEntry.IsDir entries)))
         (map run_key summaries).
Proof.
  intros Hroot. rewrite ScanLogsForDate_eq, Hroot.
  eexists. split; [reflexivity|].
  destruct (sort_Slice_sorts
              (flat_map (runs_of_source s date) (directory_names entries))
              summary_less_ordering) as [Hperm _].
  apply (Permutation_map run_key) in Hperm.
  rewrite map_flat_map in Hperm.
  rewrite (flat_map_ext _ _ (runs_of_source_keys s date)) in Hperm.
  exact Hperm.
Qed.

(** X6: when no directory listing names an entry twice, no two runs of a
    scan share the key (source, date, workflow). *)
Theorem scan_keys_are_unique (s : Scanner) (date : string)
    (entries : list DirEntry.t) (summaries : list WorkflowSummary.t) :
  os_ReadDir os (nfsRoot s) = Ok entries ->
  NoDup (directory_names entries) ->
  (forall source,
      In source (directory_names entries) ->
      NoDup (workflow_dirs s source date)) ->
  ScanLogsForDate s date = Ok summaries ->
  NoDup (map run_key summaries).
Proof.
  intros Hroot Hsources Hworkflows. rewrite ScanLogsForDate_eq, Hroot.
  intros [= <-].
  destruct (sort_Slice_sorts
              (flat_map (runs_of_source s date) (directory_names entries))
              summary_less_ordering) as [Hperm _].
  apply (Permutation_map run_key) in Hperm.
  apply (Permutation_NoDup Hperm).
  rewrite map_flat_map, (flat_map_ext _ _ (runs_of_source_keys s date)).
  apply NoDup_flat_map.
  - exact Hsources.
  - intros source Hin.
    apply NoDup_map_NoDup_ForallPairs; [|now apply Hworkflows].
    intros x y _ _ H. congruence.
  - intros x y b Hx Hy.
    apply in_map_iff in Hx. destruct Hx as (wx & <- & _).
    apply in_map_iff in Hy. destruct Hy as (wy & Heq & _). congruence.
Qed.

(** X7: [GetLogContent] of a file that opens returns, with a bound of 0,
    all the lines the scanner delivers and the scanner's error; with a
    positive bound, the first [maxLines] of them, and the scanner's error
    only when no line follows these; with a negative bound, no line at
    all. *)
Theorem read_lines_respects_the_bound (s : Scanner) (path data : string)
    (tokens : list string) (fail : option error) :
  os_Open os path = Ok data ->
  scan_tokens (raw_lines data) = (tokens, fail) ->
  GetLogContent s path 0 = (tokens, fail)
  /\ (forall maxLines,
         (0 < maxLines)%Z ->
         GetLogContent s path maxLines
         = (firstn (Z.to_nat maxLines) tokens,
            if (List.length tokens <=? Z.to_nat maxLines)%nat
            then fail else None))
  /\ (forall maxLines,
         (maxLines < 0)%Z ->
         GetLogContent s path maxLines
         = ([], match tokens with [] => fail | _ :: _ => None end)).
Proof.
  intros Hopen Hscan.
  pose proof (NewScanner_tokens data) as Hnew. rewrite Hscan in Hnew.
  injection Hnew as Hpending Hfailure.
  unfold GetLogContent. rewrite Hopen, Hpending, Hfailure.
  split; [apply read_loop_unbounded|]. split.
  - intros maxLines Hpos. rewrite read_loop_bounded by lia.
    now rewrite Z.sub_0_r.
  - intros maxLines Hneg. destruct tokens as [|token rest]; [reflexivity|].
    cbn [read_loop].
    replace (maxLines =? 0)%Z with false by (symmetry; apply Z.eqb_neq; lia).
    replace (0 <? maxLines)%Z with false by (symmetry; apply Z.ltb_ge; lia).
    reflexivity.
Qed.

(** X8: [GetLogTail] returns the error of a file that does not open, and
    the error of the scanner when a line does not fit; asked for a negative
    number of lines of a file it can read, it panics on the slice
    bounds. *)
Theorem tail_errors_and_negative_count (s : Scanner) (path : string) (n : Z) :
  (forall e,
      os_Open os path = Err e -> GetLogTail s path n = Returns (Err e))
  /\ (forall data tokens e,
         os_Open os path = Ok data ->
         scan_tokens (raw_lines data) = (tokens, Some e) ->
         GetLogTail s path n = Returns (Err e))
  /\ (forall data tokens,
         os_Open os path = Ok data ->
         scan_tokens (raw_lines data) = (tokens, None) ->
         (n < 0)%Z ->
         GetLogTail s path n = Panics "slice bounds out of range").
Proof.
  unfold GetLogTail. rewrite GetLogContent_unbounded. repeat split.
  - intros e ->. reflexivity.
  - intros data tokens e -> ->. reflexivity.
  - intros data tokens -> -> Hneg. unfold slice_from.
    replace (Z.of_nat (List.length tokens) >? n)%Z with true
      by (symmetry; apply Z.gtb_lt; lia).
    replace (Z.of_nat (List.length tokens) - n
             <=? Z.of_nat (List.length tokens))%Z with false
      by (symmetry; apply Z.leb_gt; lia).
    now rewrite andb_false_r.
Qed.

Lemma flat_map_length_le (A B : Type) (g : A -> list B) (l : list A) :
  (forall x, (List.length (g x) <= 1)%nat) ->
  (List.length (flat_map g l) <= List.length l)%nat.
Proof.
  intros Hg. induction l as [|x l IH]; simpl; [lia|].
  rewrite length_app. specialize (Hg x). lia.
Qed.

(** X9: every hit of [SearchLogs] is a log of a run of today's scan with
    only its content changed; the content is one of the lines
    [GetLogContent] reads from the file of the log with a bound of 1000 and
    contains the keyword, both in lower case; there are no more hits than
    logs. *)
Theorem search_hits_are_logs_of_todays_scan (s : Scanner) (keyword : string)
    (hits : list LogEntry.t) :
  SearchLogs s keyword = Ok hits ->
  exists summaries,
    ScanLogsForDate s (time_Today os) = Ok summaries
    /\ Forall
         (fun hit =>
            exists run log,
              In run summaries
              /\ In log (WorkflowSummary.Logs run)
              /\ hit = LogEntry.with_Content log (LogEntry.Content hit)
              /\ In (LogEntry.Content hit)
                   (fst (GetLogContent s (LogEntry.FilePath log) 1000))
              /\ line_matches keyword (LogEntry.Content hit) = true)
         hits
    /\ (List.length hits
        <= List.length (flat_map WorkflowSummary.Logs summaries))%nat.
Proof.
  unfold SearchLogs, ScanTodaysLogs.
  destruct (ScanLogsForDate s (time_Today os)) as [summaries|e];
    [|discriminate].
  intros [= <-]. exists summaries. split; [reflexivity|].
  rewrite search_summaries_flat_map. split.
  - apply Forall_flat_map, Forall_forall. intros log Hlog.
    apply in_flat_map in Hlog. destruct Hlog as (run & Hrun & Hlog).
    unfold search_file.
    destruct (GetLogContent s (LogEntry.FilePath log) 1000)
      as [content [e|]] eqn:Hread; [constructor|].
    destruct (find (line_matches keyword) content) as [line|] eqn:Hfind;
      constructor; [|constructor].
    apply find_some in Hfind. destruct Hfind as [Hin Hmatch].
    exists run, log. rewrite Hread.
    repeat split; [exact Hrun|exact Hlog|exact Hin|exact Hmatch].
  - apply flat_map_length_le. intros log. unfold search_file.
    destruct (GetLogContent s (LogEntry.FilePath log) 1000)
      as [content [e|]]; simpl; [lia|].
    destruct (find (line_matches keyword) content); simpl; lia.
Qed.

(** ** The log page *)

Lemma flat_map_singleton_filter (A : Type) (keep : A -> bool) (l : list A) :
  flat_map (fun x => if keep x then [x] else []) l = filter keep l.
Proof.
  induction l as [|x l IH]; simpl; [reflexivity|].
  rewrite IH. now destruct (keep x).
Qed.

Lemma filterWorkflows_filter workflows source status :
  filterWorkflows workflows source status
  = filter (passes_filter source status) workflows.
Proof.
  unfold filterWorkflows.
  rewrite fold_left_collect
    with (g := fun run => if passes_filter source status run then [run] else []).
  - apply flat_map_singleton_filter.
  - intros acc run. unfold passes_filter.
    destruct (String.eqb source EmptyString);
      destruct (String.eqb (WorkflowSummary.Source run) source);
      destruct (String.eqb status EmptyString);
      destruct (String.eqb (WorkflowSummary.Status run) status);
      simpl; now rewrite ?app_nil_r.
Qed.

Lemma passes_filter_iff source status run :
  passes_filter source status run = true
  <-> (source = EmptyString \/ WorkflowSummary.Source run = source)
      /\ (status = EmptyString \/ WorkflowSummary.Status run = status).
Proof.
  unfold passes_filter.
  now rewrite andb_true_iff, !orb_true_iff, !String.eqb_eq.
Qed.

Lemma passes_filter_split source status run :
  passes_filter source status run
  = passes_filter source EmptyString run
    && passes_filter EmptyString status run.
Proof.
  unfold passes_filter. cbn [String.eqb orb].
  now rewrite andb_true_r.
Qed.

Lemma StronglySorted_filter (A : Type) (R : A -> A -> Prop) (keep : A -> bool)
    (l : list A) :
  StronglySorted R l -> StronglySorted R (filter keep l).
Proof.
  induction 1 as [|x l Hsorted IH Hall]; simpl; [constructor|].
  destruct (keep x); [|exact IH]. constructor; [exact IH|].
  apply Forall_forall. intros y Hy. apply filter_In in Hy.
  rewrite Forall_forall in Hall. now apply Hall.
Qed.

(** X10: [filterWorkflows] keeps exactly the runs whose source is the one
    asked for, when one is asked for, and whose status is the one asked
    for, when one is asked for; with neither it returns the list as it is,
    and filtering by source and then by status is filtering by both. *)
Theorem filter_keeps_the_matching_runs (workflows : list WorkflowSummary.t)
    (source status : string) :
  (forall run,
      In run (filterWorkflows workflows source status)
      <-> In run workflows
          /\ (source = EmptyString \/ WorkflowSummary.Source run = source)
          /\ (status = EmptyString \/ WorkflowSummary.Status run = status))
  /\ filterWorkflows workflows EmptyString EmptyString = workflows
  /\ filterWorkflows (filterWorkflows workflows source EmptyString)
       EmptyString status
     = filterWorkflows workflows source status.
Proof.
  rewrite !filterWorkflows_filter. split; [|split].
  - intros run. now rewrite filter_In, passes_filter_iff.
  - induction workflows as [|run rest IH]; simpl; [reflexivity|].
    now rewrite IH.
  - induction workflows as [|run rest IH]; simpl; [reflexivity|].
    rewrite (passes_filter_split source status run).
    destruct (passes_filter source EmptyString run); simpl; [|exact IH].
    destruct (passes_filter EmptyString status run); now rewrite IH.
Qed.

(** X11: a scan result that has gone through [filterWorkflows] is still in
    order: any two adjacent runs of the filtered list are ordered by source
    and then by workflow. *)
Theorem filtered_scan_stays_sorted (s : Scanner) (date source status : string)
    (summaries : list WorkflowSummary.t) :
  ScanLogsForDate s date = Ok summaries ->
  forall i a b,
    nth_error (filterWorkflows summaries source status) i = Some a ->
    nth_error (filterWorkflows summaries source status) (S i) = Some b ->
    ordered_pair a b.
Proof.
  rewrite ScanLogsForDate_eq.
  destruct (os_ReadDir os (nfsRoot s)) as [entries|e]; [|discriminate].
  intros [= <-] i a b Ha Hb.
  destruct (sort_Slice_sorts
              (flat_map (runs_of_source s date) (directory_names entries))
              summary_less_ordering) as [_ Hsorted].
  apply Sorted_StronglySorted in Hsorted.
  - rewrite filterWorkflows_filter in Ha, Hb.
    apply (StronglySorted_filter (passes_filter source status)) in Hsorted.
    apply StronglySorted_Sorted in Hsorted.
    apply not_less_ordered.
    eapply (Sorted_adjacent Hsorted); eassumption.
  - intros x y z Hxy Hyz.
    exact (less_neg_trans summary_less_ordering _ _ _ Hyz Hxy).
Qed.

(** X12: the class [getWorkflowStatusClass] gives the status of a scanned
    run is always the default one: it knows [completed], [failed] and
    [running], and the scanner writes none of these. *)
Theorem status_class_of_a_scanned_run_is_default (s : Scanner)
    (source date workflow : string) :
  exists run,
    scanWorkflow s source date workflow = Ok run
    /\ getWorkflowStatusClass (WorkflowSummary.Status run)
       = "bg-gray-100 text-gray-800".
Proof.
  destruct (scanWorkflow_returns s source date workflow)
    as (run & Hrun & _ & Hstatus).
  exists run. split; [exact Hrun|]. rewrite Hstatus.
  pose proof (determineWorkflowStatus_valid s run) as Hin.
  destruct Hin as [<-|[<-|[<-|[<-|[]]]]]; reflexivity.
Qed.

(** ** The configuration *)

Lemma GetEnvWithDefault_not_empty env key defaultValue :
  defaultValue <> EmptyString ->
  GetEnvWithDefault env key defaultValue <> EmptyString.
Proof.
  intros Hdefault. unfold GetEnvWithDefault.
  destruct (String.eqb_spec (os_Getenv env key) EmptyString); simpl; assumption.
Qed.

Lemma os_Setenv_other env key value k :
  k <> key -> os_Getenv (os_Setenv env key value) k = os_Getenv env k.
Proof.
  intros Hk. unfold os_Setenv, os_Getenv.
  destruct (String.eqb key EmptyString || has_byte "="%char key
            || has_byte zero key || has_byte zero value); [reflexivity|].
  apply String.eqb_neq in Hk. now rewrite Hk.
Qed.

Lemma load_env_line_keeps env text k :
  os_Getenv env k <> EmptyString ->
  os_Getenv (load_env_line env text) k = os_Getenv env k.
Proof.
  intros Hset. unfold load_env_line.
  destruct (String.eqb (TrimSpace text) EmptyString
            || String.prefix "#" (TrimSpace text)); [reflexivity|].
  destruct (split_at_first "="%char (TrimSpace text))
    as [|part0 [|part1 [|part2 parts]]]; try reflexivity.
  cbv zeta.
  destruct (String.eqb_spec (os_Getenv env (TrimSpace part0)) EmptyString)
    as [Hempty|_]; [|reflexivity].
  apply os_Setenv_other. intros ->. contradiction.
Qed.

Lemma LoadEnvFile_keeps env filename k :
  os_Getenv env k <> EmptyString ->
  os_Getenv (fst (LoadEnvFile env filename)) k = os_Getenv env k.
Proof.
  unfold LoadEnvFile. destruct (os_Open os filename) as [data|e].
  - cbn [fst]. generalize (pending (NewScanner data)). intros lines.
    revert env. induction lines as [|line rest IH]; intros env Hset;
      [reflexivity|].
    cbn [fold_left].
    rewrite IH;
      [now apply load_env_line_keeps|now rewrite load_env_line_keeps].
  - now destruct (os_IsNotExist e).
Qed.

Lemma GetNFSRoot_set (c : Config.t) :
  PathsConfig.NFSRoot (Config.Paths c) <> EmptyString ->
  GetNFSRoot c = PathsConfig.NFSRoot (Config.Paths c).
Proof.
  intros Hroot. unfold GetNFSRoot.
  apply String.eqb_neq in Hroot. now rewrite Hroot.
Qed.

(** X13: [GetNFSRoot] never returns the empty path, and returns [nfs_root]
    whenever that is set, whatever the mode. *)
Theorem nfs_root_is_never_empty (c : Config.t) :
  GetNFSRoot c <> EmptyString
  /\ (PathsConfig.NFSRoot (Config.Paths c) <> EmptyString ->
      GetNFSRoot c = PathsConfig.NFSRoot (Config.Paths c)).
Proof.
  split; [|apply GetNFSRoot_set].
  unfold GetNFSRoot.
  destruct (String.eqb_spec (PathsConfig.NFSRoot (Config.Paths c)) EmptyString)
    as [Hroot|Hroot]; cbn [negb]; [|assumption].
  destruct (String.eqb (Config.Mode c) "test");
    destruct (String.eqb (Config.Mode c) "prod");
    destruct (String.eqb_spec (PathsConfig.NFSRootTest (Config.Paths c))
                EmptyString);
    destruct (String.eqb_spec (PathsConfig.NFSRootProd (Config.Paths c))
                EmptyString);
    cbn [andb negb]; try assumption; discriminate.
Qed.

(** X14: with no variable set, [applyEnvOverrides] changes nothing. *)
Theorem overrides_of_an_empty_environment (env : Environ) (config : Config.t) :
  (forall key, os_Getenv env key = EmptyString) ->
  applyEnvOverrides env config = config.
Proof.
  intros Hempty.
  unfold applyEnvOverrides, override_string, override_int, override_bool.
  rewrite !Hempty. cbn [String.eqb negb].
  destruct config as [mode [port host] [root test prod logdir]
                        [url urltest [h p d u pw off]] inf [lvl fp fl jl] db].
  reflexivity.
Qed.

(** X15: once [nfs_root] is set in a configuration, no environment
    variable changes the NFS root: [applyEnvOverrides] writes the test and
    production roots and never [nfs_root], which [GetNFSRoot] prefers. *)
Theorem overrides_do_not_move_a_set_nfs_root (env : Environ)
    (config : Config.t) :
  PathsConfig.NFSRoot (Config.Paths (applyEnvOverrides env config))
  = PathsConfig.NFSRoot (Config.Paths config)
  /\ (PathsConfig.NFSRoot (Config.Paths config) <> EmptyString ->
      GetNFSRoot (applyEnvOverrides env config) = GetNFSRoot config).
Proof.
  split; [reflexivity|]. intros Hroot.
  rewrite (GetNFSRoot_set config Hroot).
  now apply (GetNFSRoot_set (applyEnvOverrides env config)).
Qed.

Lemma load_first_nothing_found config configFiles :
  (forall file, In file configFiles -> fileExists file = false) ->
  load_first config configFiles = config.
Proof.
  induction configFiles as [|file rest IH]; intros Hnone; [reflexivity|].
  cbn [load_first]. rewrite (Hnone file (or_introl eq_refl)).
  apply IH. intros f Hf. apply Hnone. now right.
Qed.

(** X16: the NFS root of a configuration read from the environment is
    [NFS_ROOT] when that is set; else, in mode [test] (the mode when [ENV]
    is not set), [NFS_ROOT_TEST] or its default; in mode [prod],
    [NFS_ROOT_PROD] or its default; and in any other mode the fixed
    production path, whatever [NFS_ROOT_PROD] says. *)
Theorem nfs_root_of_the_environment (env : Environ) :
  GetNFSRoot (LoadFromEnv env)
  = if negb (String.eqb (os_Getenv env "NFS_ROOT") EmptyString)
    then os_Getenv env "NFS_ROOT"
    else if String.eqb (GetEnvWithDefault env "ENV" "test") "test"
    then GetEnvWithDefault env "NFS_ROOT_TEST" "./nfs_backup/monitoring"
    else if String.eqb (GetEnvWithDefault env "ENV" "test") "prod"
    then GetEnvWithDefault env "NFS_ROOT_PROD"
           "/home/informaticaadmin/nfs_backup/monitoring"
    else "/home/informaticaadmin/nfs_backup/monitoring".
Proof.
  unfold GetNFSRoot, LoadFromEnv. cbv zeta.
  cbn [Config.Paths Config.Mode PathsConfig.NFSRoot PathsConfig.NFSRootTest
       PathsConfig.NFSRootProd].
  pose proof (@GetEnvWithDefault_not_empty env "NFS_ROOT_TEST"
                "./nfs_backup/monitoring") as Htest.
  pose proof (@GetEnvWithDefault_not_empty env "NFS_ROOT_PROD"
                "/home/informaticaadmin/nfs_backup/monitoring") as Hprod.
  apply String.eqb_neq in Htest; [|discriminate].
  apply String.eqb_neq in Hprod; [|discriminate].
  rewrite Htest, Hprod. cbn [negb andb].
  unfold GetEnvWithDefault at 1 2.
  destruct (String.eqb (os_Getenv env "NFS_ROOT") EmptyString) eqn:Hroot;
    cbn [negb]; [|now rewrite Hroot].
  cbn [String.eqb negb]. rewrite !andb_true_r.
  destruct (String.eqb (GetEnvWithDefault env "ENV" "test") "test");
    [reflexivity|].
  now destruct (String.eqb (GetEnvWithDefault env "ENV" "test") "prod").
Qed.

(** X17: [LoadEnvFile] never changes a variable that is set to a value
    that is not empty, whatever the file holds and whether or not it can be
    read. *)
Theorem env_file_never_overrides (env : Environ) (filename key : string) :
  os_Getenv env key <> EmptyString ->
  os_Getenv (fst (LoadEnvFile env filename)) key = os_Getenv env key.
Proof. apply LoadEnvFile_keeps. Qed.

(** X18: when [ENV] is set in the environment, the mode of the
    configuration [LoadConfig] returns is that value, whatever the path it
    is given and whatever the files say. *)
Theorem mode_comes_from_the_environment (env : Environ) (configPath : string)
    (config : Config.t) :
  os_Getenv env "ENV" <> EmptyString ->
  snd (LoadConfig env configPath) = Ok config ->
  Config.Mode config = os_Getenv env "ENV".
Proof.
  intros Hset. unfold LoadConfig.
  destruct (negb (String.eqb configPath EmptyString)
            && HasSuffix (strings_ToLower configPath) ".env").
  - pose proof (@LoadEnvFile_keeps env configPath "ENV" Hset) as Hkeep.
    destruct (LoadEnvFile env configPath) as [env' [e|]]; [discriminate|].
    cbn [fst snd] in *. intros [= <-].
    cbn [LoadFromEnv Config.Mode]. unfold GetEnvWithDefault.
    rewrite Hkeep. apply String.eqb_neq in Hset. now rewrite Hset.
  - pose proof (@LoadEnvFile_keeps env ".env" "ENV" Hset) as Hkeep.
    destruct (LoadEnvFile env ".env") as [env' err].
    cbn [fst snd] in *. intros [= <-].
    cbn [applyEnvOverrides Config.Mode]. unfold override_string.
    rewrite Hkeep. apply String.eqb_neq in Hset. now rewrite Hset.
Qed.

(** X19: given a path that does not end in [.env], [LoadConfig] never
    fails, also when the file is missing or does not parse; and when none
    of the files it tries exists, the NFS root of what it returns is
    [./nfs_backup/monitoring], whatever the mode and the environment. *)
Theorem yaml_load_never_fails (env : Environ) (configPath : string) :
  negb (String.eqb configPath EmptyString)
  && HasSuffix (strings_ToLower configPath) ".env" = false ->
  exists config,
    snd (LoadConfig env configPath) = Ok config
    /\ ((forall file,
            In file
              (candidate_files (fst (LoadEnvFile env ".env")) configPath) ->
            fileExists file = false) ->
        GetNFSRoot config = "./nfs_backup/monitoring").
Proof.
  intros Hyaml. unfold LoadConfig. rewrite Hyaml.
  destruct (LoadEnvFile env ".env") as [env' err]. cbn [fst snd].
  eexists. split; [reflexivity|]. intros Hnone.
  rewrite (load_first_nothing_found _ _ Hnone).
  rewrite GetNFSRoot_set; [reflexivity|discriminate].
Qed.

Lemma load_env_line_assignment env text :
  load_env_line env text
  = match env_assignment text with
    | Some (key, value) =>
        if String.eqb (os_Getenv env key) EmptyString
        then os_Setenv env key value
        else env
    | None => env
    end.
Proof.
  unfold load_env_line, env_assignment.
  destruct (String.eqb (TrimSpace text) EmptyString
            || String.prefix "#" (TrimSpace text)); [reflexivity|].
  now destruct (split_at_first "="%char (TrimSpace text))
    as [|part0 [|part1 [|part2 parts]]].
Qed.

Lemma os_Setenv_same env key value :
  settable key value = true ->
  os_Getenv (os_Setenv env key value) key = value.
Proof.
  unfold settable, os_Setenv, os_Getenv. intros Hok.
  apply negb_true_iff in Hok. rewrite Hok. now rewrite String.eqb_refl.
Qed.

Lemma os_Setenv_refused env key value :
  settable key value = false -> os_Setenv env key value = env.
Proof.
  unfold settable, os_Setenv. intros Hno.
  apply negb_false_iff in Hno. now rewrite Hno.
Qed.

Lemma load_env_line_same env env' text :
  same_environ env env' ->
  same_environ (load_env_line env text) (load_env_line env' text).
Proof.
  intros Hsame. rewrite !load_env_line_assignment.
  destruct (env_assignment text) as [[key value]|]; [|exact Hsame].
  rewrite <- (Hsame key).
  destruct (String.eqb (os_Getenv env key) EmptyString); [|exact Hsame].
  destruct (settable key value) eqn:Hok.
  - intros k. destruct (String.eqb_spec k key) as [->|Hk].
    + now rewrite !os_Setenv_same.
    + now rewrite !os_Setenv_other.
  - now rewrite !os_Setenv_refused.
Qed.

Lemma load_env_lines_keep lines env k :
  os_Getenv env k <> EmptyString ->
  os_Getenv (fold_left load_env_line lines env) k = os_Getenv env k.
Proof.
  revert env. induction lines as [|line rest IH]; intros env Hset;
    [reflexivity|].
  cbn [fold_left].
  rewrite IH; [now apply load_env_line_keeps|now rewrite load_env_line_keeps].
Qed.

(** A line that assigns a value that is not empty leaves its variable set
    to a value that is not empty, then and to the end of the file. *)
Lemma load_env_lines_set lines env text key value :
  In text lines ->
  env_assignment text = Some (key, value) ->
  settable key value = true ->
  value <> EmptyString ->
  os_Getenv (fold_left load_env_line lines env) key <> EmptyString.
Proof.
  revert env. induction lines as [|line rest IH]; intros env Hin Ha Hok Hv;
    [destruct Hin|]. destruct Hin as [<-|Hin].
  - cbn [fold_left]. rewrite load_env_lines_keep.
    + rewrite load_env_line_assignment, Ha.
      destruct (String.eqb_spec (os_Getenv env key) EmptyString);
        [now rewrite os_Setenv_same|assumption].
    + rewrite load_env_line_assignment, Ha.
      destruct (String.eqb_spec (os_Getenv env key) EmptyString);
        [now rewrite os_Setenv_same|assumption].
  - cbn [fold_left]. now apply IH.
Qed.

Lemma load_env_lines_again lines again env env' :
  incl again lines ->
  same_environ env' (fold_left load_env_line lines env) ->
  same_environ (fold_left load_env_line again env')
    (fold_left load_env_line lines env).
Proof.
  revert env'. induction again as [|text rest IH]; intros env' Hincl Hsame;
    [exact Hsame|].
  cbn [fold_left]. apply IH; [intros x Hx; apply Hincl; now right|].
  rewrite load_env_line_assignment.
  destruct (env_assignment text) as [[key value]|] eqn:Ha; [|exact Hsame].
  destruct (String.eqb_spec (os_Getenv env' key) EmptyString) as [Hempty|_];
    [|exact Hsame].
  destruct (settable key value) eqn:Hok;
    [|now rewrite os_Setenv_refused].
  destruct (String.eqb_spec value EmptyString) as [->|Hv].
  - intros k. destruct (String.eqb_spec k key) as [->|Hk].
    + rewrite os_Setenv_same by assumption. now rewrite <- Hsame.
    + rewrite os_Setenv_other by assumption. apply Hsame.
  - exfalso. rewrite Hsame in Hempty.
    eapply load_env_lines_set;
      [apply Hincl; now left|exact Ha|exact Hok|exact Hv|exact Hempty].
Qed.

(** X20: the scan of a source fails exactly when its date directory is
    not reported missing and cannot be listed, with the error of the
    listing; no workflow and no log of the source can make it fail. *)
Theorem source_scan_fails_only_on_listing (s : Scanner)
    (source date : string) (e : error) :
  scanSourceForDate s source date = Err e
  <-> match os_Stat os (filepath_Join [nfsRoot s; source; date]) with
      | Ok _ => true
      | Err e0 => negb (os_IsNotExist e0)
      end = true
      /\ os_ReadDir os (filepath_Join [nfsRoot s; source; date]) = Err e.
Proof.
  rewrite scanSourceForDate_eq.
  destruct (os_Stat os (filepath_Join [nfsRoot s; source; date]))
    as [info|e0]; [|destruct (os_IsNotExist e0)]; cbn [negb];
    try destruct (os_ReadDir os (filepath_Join [nfsRoot s; source; date]));
    split; try (intros [H1 H2]); try discriminate; try congruence;
    intros H; split; congruence.
Qed.

(** X21: for the error log, the verdict of [detectErrors] is that of the
    first line alone: an error exactly when that line, without the white
    space around it, is not empty, whatever the lines after it hold. *)
Theorem error_log_verdict_is_the_first_line (s : Scanner) (path data : string)
    (line : string) (rest : list string) (fail : option error) :
  os_Open os path = Ok data ->
  scan_tokens (raw_lines data) = (line :: rest, fail) ->
  detectErrors s path "error.log"
  = (negb (String.eqb (TrimSpace line) EmptyString), None).
Proof.
  intros Hopen Hscan. rewrite (detectErrors_error_log s _ Hopen), Hscan.
  now destruct (TrimSpace line).
Qed.

Lemma override_string_twice env key current :
  override_string env key (override_string env key current)
  = override_string env key current.
Proof.
  unfold override_string.
  now destruct (negb (String.eqb (os_Getenv env key) EmptyString)).
Qed.

Lemma override_int_twice env key current :
  override_int env key (override_int env key current)
  = override_int env key current.
Proof.
  unfold override_int.
  destruct (negb (String.eqb (os_Getenv env key) EmptyString));
    [|reflexivity].
  now destruct (strconv_Atoi (os_Getenv env key)).
Qed.

Lemma override_bool_twice env key current :
  override_bool env key (override_bool env key current)
  = override_bool env key current.
Proof.
  unfold override_bool.
  now destruct (negb (String.eqb (os_Getenv env key) EmptyString)).
Qed.

(** X22: applying the overrides of an environment twice gives what
    applying them once gives. *)
Theorem overrides_are_idempotent (env : Environ) (config : Config.t) :
  applyEnvOverrides env (applyEnvOverrides env config)
  = applyEnvOverrides env config.
Proof.
  unfold applyEnvOverrides. cbv zeta.
  cbn [Config.Mode Config.Server Config.Paths Config.Services
       Config.Informatica Config.Logging Config.Database
       ServerConfig.Port ServerConfig.Host
       PathsConfig.NFSRoot PathsConfig.NFSRootTest PathsConfig.NFSRootProd
       PathsConfig.LogDir
       ServicesConfig.YarnRMURL ServicesConfig.YarnRMURLTest
       ServicesConfig.InformaticaDB
       InformaticaConfig.Host InformaticaConfig.Port InformaticaConfig.Database
       InformaticaConfig.Username InformaticaConfig.Password
       InformaticaConfig.TimeOffset
       LoggingConfig.Level LoggingConfig.FilePath LoggingConfig.FileLog
       LoggingConfig.JSONLog].
  now rewrite !override_string_twice, !override_int_twice,
    !override_bool_twice.
Qed.

(** X23: [LoadConfig] fails only when it is given a path ending in [.env]
    and [LoadEnvFile] fails on that file: the file exists and does not
    open, or a line of it does not fit the scanner; a missing file is no
    failure. *)
Theorem config_load_fails_only_on_env_file (env : Environ)
    (configPath : string) (e : error) :
  snd (LoadConfig env configPath) = Err e ->
  negb (String.eqb configPath EmptyString)
  && HasSuffix (strings_ToLower configPath) ".env" = true
  /\ exists cause,
       e = Errorf "failed to load .env file" cause
       /\ ((os_Open os configPath = Err cause /\ os_IsNotExist cause = false)
           \/ exists data,
                os_Open os configPath = Ok data
                /\ snd (scan_tokens (raw_lines data)) = Some cause).
Proof.
  unfold LoadConfig.
  destruct (negb (String.eqb configPath EmptyString)
            && HasSuffix (strings_ToLower configPath) ".env").
  - unfold LoadEnvFile.
    destruct (os_Open os configPath) as [data|e0] eqn:Hopen.
    + pose proof (NewScanner_tokens data) as Hnew.
      destruct (failure (NewScanner data)) as [cause|] eqn:Hfail;
        cbn [snd]; [|discriminate].
      intros [= <-]. split; [reflexivity|]. exists cause.
      split; [reflexivity|]. right. exists data. split; [reflexivity|].
      now rewrite <- Hnew.
    + destruct (os_IsNotExist e0) eqn:Hmissing; cbn [snd]; [discriminate|].
      intros [= <-]. split; [reflexivity|]. exists e0.
      split; [reflexivity|]. left. now split.
  - destruct (LoadEnvFile env ".env") as [env' err]. discriminate.
Qed.

(** X24: loading the same env file a second time changes no variable:
    after the second load [os.Getenv] answers as after the first. *)
Theorem env_file_second_load_changes_nothing (env : Environ)
    (filename key : string) :
  os_Getenv (fst (LoadEnvFile (fst (LoadEnvFile env filename)) filename)) key
  = os_Getenv (fst (LoadEnvFile env filename)) key.
Proof.
  unfold LoadEnvFile. destruct (os_Open os filename) as [data|e].
  - cbn [fst]. apply load_env_lines_again; [apply incl_refl|].
    intros k. reflexivity.
  - now destruct (os_IsNotExist e).
Qed.

End Methods.

(** ** The scanner on the small tree *)

Lemma insert_permutation (A : Type) (less : A -> A -> bool) (a : A) (l : list A) :
  Permutation (a :: l) (Demo.insert less a l).
Proof.
  induction l as [|b l IH]; simpl; [reflexivity|].
  destruct (less a b); [reflexivity|].
  rewrite perm_swap. now apply perm_skip.
Qed.

Lemma insert_head (A : Type) (less : A -> A -> bool) (a b : A) (l : list A) :
  less a b = false ->
  HdRel (fun x y => less y x = false) b l ->
  HdRel (fun x y => less y x = false) b (Demo.insert less a l).
Proof.
  intros Hab Hhd. destruct l as [|c l]; simpl.
  - now constructor.
  - destruct (less a c); constructor; [assumption|now inversion Hhd].
Qed.

Lemma insert_sorted (A : Type) (less : A -> A -> bool) (a : A) (l : list A) :
  StrictWeakOrdering less ->
  Sorted (fun x y => less y x = false) l ->
  Sorted (fun x y => less y x = false) (Demo.insert less a l).
Proof.
  intros Hless. induction 1 as [|b l Hsorted IH Hhd]; simpl.
  - repeat constructor.
  - destruct (less a b) eqn:Hab.
    + constructor; [now constructor|]. constructor.
      destruct (less b a) eqn:Hba; [|reflexivity].
      rewrite <- (less_irrefl Hless a). symmetry.
      exact (less_trans Hless _ _ _ Hab Hba).
    + constructor; [exact IH|]. now apply insert_head.
Qed.

Lemma insertion_sort_sorts (A : Type) (x : list A) (less : A -> A -> bool) :
  StrictWeakOrdering less -> sorted_by less x (Demo.insertion_sort x less).
Proof.
  intros Hless. unfold sorted_by, Demo.insertion_sort.
  induction x as [|a x [IHperm IHsorted]]; simpl.
  - split; constructor.
  - split.
    + rewrite <- insert_permutation. now apply perm_skip.
    + now apply insert_sorted.
Qed.

(** C2, at an [error.log] whose first line is blank and whose second line
    is [boom]: the file holds content that is not white space, and
    [detectErrors] reports no error, since only the first line is looked
    at; the run of this workflow is In Progress, not Failed. *)
Lemma error_log_blank_first_line :
  os_Open Demo.world "/nfs/batchA/2025-01-11/job3/error.log"
  = Ok (Demo.text [""; "boom"])
  /\ has_content (Demo.text [""; "boom"]) = true
  /\ detectErrors Demo.world Demo.scanner
       "/nfs/batchA/2025-01-11/job3/error.log" "error.log" = (false, None)
  /\ option_map WorkflowSummary.Status
       (match scanWorkflow Demo.join Demo.world Demo.scanner
                "batchA" "2025-01-11" "job3" with
        | Ok run => Some run
        | Err _ => None
        end) = Some "In Progress".
Proof. repeat split; vm_compute; reflexivity. Qed.

Lemma has_errors_is_disjunction_witness :
  exists summaries,
    ScanLogsForDate Demo.join Demo.insertion_sort Demo.world Demo.scanner
      "2025-01-10" = Ok summaries
    /\ map WorkflowSummary.HasErrors summaries = [false; true]
    /\ Forall (fun run =>
                 WorkflowSummary.HasErrors run
                 = existsb LogEntry.HasErrors (WorkflowSummary.Logs run))
              summaries.
Proof.
  eexists. split; [vm_compute; reflexivity|]. split; [reflexivity|].
  apply (proj2 (@has_errors_is_disjunction Demo.join Demo.insertion_sort
                  insertion_sort_sorts Demo.world Demo.scanner "2025-01-10")).
  vm_compute; reflexivity.
Defined.

Lemma scan_result_sorted_witness :
  exists a b,
    ScanLogsForDate Demo.join Demo.insertion_sort Demo.world Demo.scanner
      "2025-01-11" = Ok [a; b]
    /\ (WorkflowSummary.Source a, WorkflowSummary.Workflow a) = ("batchA", "job3")
    /\ (WorkflowSummary.Source b, WorkflowSummary.Workflow b) = ("batchB", "job4")
    /\ ordered_pair a b.
Proof.
  eexists. eexists. split; [vm_compute; reflexivity|].
  split; [reflexivity|]. split; [reflexivity|].
  apply (@scan_result_sorted Demo.join Demo.insertion_sort
           insertion_sort_sorts Demo.world Demo.scanner "2025-01-11" _
           eq_refl 0%nat); reflexivity.
Defined.

Lemma scan_isolates_failing_sources_witness :
  scanSourceForDate Demo.join Demo.world Demo.scanner "batchC" "2025-01-10"
  = Err (PathError "open" "/nfs/batchC/2025-01-10" EACCES)
  /\ exists summaries,
       ScanLogsForDate Demo.join Demo.insertion_sort Demo.world Demo.scanner
         "2025-01-10" = Ok summaries
       /\ Permutation
            (flat_map
               (runs_of_source Demo.join Demo.world Demo.scanner "2025-01-10")
               ["batchA"; "batchB"; "batchC"])
            summaries.
Proof.
  split; [vm_compute; reflexivity|].
  exact (proj1 (proj2 (@scan_isolates_failing_sources Demo.join
                         Demo.insertion_sort insertion_sort_sorts
                         Demo.world Demo.scanner "2025-01-10"))
           _ eq_refl).
Defined.

Lemma missing_date_directory_is_empty_witness :
  os_Stat Demo.world (Demo.join ["/nfs"; "batchB"; "2025-01-10"])
  = Err (PathError "stat" "/nfs/batchB/2025-01-10" ENOENT)
  /\ scanSourceForDate Demo.join Demo.world Demo.scanner "batchB" "2025-01-10"
     = Ok [].
Proof.
  split; [reflexivity|].
  apply (@missing_date_directory_is_empty Demo.join Demo.world Demo.scanner
           "batchB" "2025-01-10"
           (PathError "stat" "/nfs/batchB/2025-01-10" ENOENT));
    reflexivity.
Defined.

Lemma tail_returns_last_lines_witness :
  exists tail,
    GetLogTail Demo.world Demo.scanner
      "/nfs/batchA/2025-01-11/job3/info.log" 2 = Returns (Ok tail)
    /\ (exists front, ["Starting"; "Fatal: disk"; "fatal again"] = front ++ tail)
    /\ List.length tail = 2%nat
    /\ ((3 <= 2)%Z -> tail = ["Starting"; "Fatal: disk"; "fatal again"]).
Proof.
  apply (@tail_returns_last_lines Demo.world Demo.scanner
           "/nfs/batchA/2025-01-11/job3/info.log"
           (Demo.text ["Starting"; "Fatal: disk"; "fatal again"]) 2
           ["Starting"; "Fatal: disk"; "fatal again"]);
    [reflexivity|reflexivity|lia].
Defined.

Lemma status_is_one_of_four_witness :
  exists summaries,
    ScanLogsForDate Demo.join Demo.insertion_sort Demo.world Demo.scanner
      "2025-01-10" = Ok summaries
    /\ map WorkflowSummary.Status summaries = ["Completed"; "Failed"]
    /\ Forall (fun run =>
                 In (WorkflowSummary.Status run) valid_statuses
                 /\ WorkflowSummary.Status run <> "Unknown")
              summaries.
Proof.
  eexists. split; [vm_compute; reflexivity|]. split; [reflexivity|].
  apply (proj2 (@status_is_one_of_four Demo.join Demo.insertion_sort
                  insertion_sort_sorts Demo.world Demo.scanner "2025-01-10")).
  vm_compute; reflexivity.
Defined.

(** C6 as stated fails: a string that is no date, and the empty string,
    are scanned like any date and give runs, and the empty keyword is
    searched and gives one hit for every file of today's runs. *)
Lemma scan_accepts_malformed_date :
  is_iso_date "not-a-date" = false
  /\ is_iso_date "" = false
  /\ (exists run,
         ScanLogsForDate Demo.join Demo.insertion_sort Demo.world Demo.scanner
           "not-a-date" = Ok [run]
         /\ WorkflowSummary.Workflow run = "jobX")
  /\ (exists runs,
         ScanLogsForDate Demo.join Demo.insertion_sort Demo.world Demo.scanner
           "" = Ok runs
         /\ List.length runs = 5%nat)
  /\ (exists hits,
         SearchLogs Demo.join Demo.to_lower Demo.insertion_sort Demo.world
           Demo.scanner "" = Ok hits
         /\ map LogEntry.Content hits = ["Starting"; ""; "ok"]).
Proof.
  repeat split; try reflexivity;
    eexists; (split; [vm_compute; reflexivity|reflexivity]).
Qed.

(** C8 as stated fails: the keyword [failed] occurs in a log of 2025-01-10,
    so a search of the scan of that date finds it; [SearchLogs] cannot be
    given that date and, today being 2025-01-11, finds nothing. *)
Lemma search_cannot_be_given_a_date :
  time_Today Demo.world = "2025-01-11"
  /\ SearchLogs Demo.join Demo.to_lower Demo.insertion_sort Demo.world
       Demo.scanner "failed" = Ok []
  /\ exists hit,
       search_on_date Demo.join Demo.to_lower Demo.insertion_sort Demo.world
         Demo.scanner "failed" "2025-01-10" = Ok [hit]
       /\ LogEntry.Content hit = "load FAILED".
Proof.
  split; [reflexivity|]. split; [vm_compute; reflexivity|].
  eexists. split; [vm_compute; reflexivity|reflexivity].
Qed.

(** ** The further properties on the small tree and setting *)

Lemma pattern_scan_signals_error_witness :
  (fst (detectErrors Demo.world Demo.scanner
          "/nfs/batchA/2025-01-10/job2/info.log" "info.log") = true
   <-> exists line pattern pre post,
         In line ["step 1"; "load FAILED"] /\ In pattern errorPatterns
         /\ line = String.append pre (String.append pattern post))
  /\ (fst (detectErrors Demo.world Demo.scanner
             "/nfs/batchA/2025-01-10/job2/info.log" "info.log") = true ->
      snd (detectErrors Demo.world Demo.scanner
             "/nfs/batchA/2025-01-10/job2/info.log" "info.log") = None)
  /\ (fst (detectErrors Demo.world Demo.scanner
             "/nfs/batchA/2025-01-10/job2/info.log" "info.log") = false ->
      snd (detectErrors Demo.world Demo.scanner
             "/nfs/batchA/2025-01-10/job2/info.log" "info.log") = None).
Proof.
  apply (@pattern_scan_signals_error Demo.world Demo.scanner
           "/nfs/batchA/2025-01-10/job2/info.log" "info.log"
           (Demo.text ["step 1"; "load FAILED"]));
    [reflexivity|discriminate|reflexivity].
Defined.

Lemma scan_has_one_run_per_workflow_directory_witness :
  exists summaries,
    ScanLogsForDate Demo.join Demo.insertion_sort Demo.world Demo.scanner
      "2025-01-10" = Ok summaries
    /\ Permutation
         (flat_map
            (fun source =>
               map (fun workflow => (source, "2025-01-10", workflow))
                 (workflow_dirs Demo.join Demo.world Demo.scanner source
                    "2025-01-10"))
            ["batchA"; "batchB"; "batchC"])
         (map run_key summaries).
Proof.
  exact (@scan_has_one_run_per_workflow_directory Demo.join
           Demo.insertion_sort insertion_sort_sorts Demo.world Demo.scanner
           "2025-01-10" _ eq_refl).
Defined.

Lemma scan_keys_are_unique_witness :
  exists summaries,
    ScanLogsForDate Demo.join Demo.insertion_sort Demo.world Demo.scanner
      "2025-01-10" = Ok summaries
    /\ List.length summaries = 2%nat
    /\ NoDup (map run_key summaries).
Proof.
  eexists. split; [vm_compute; reflexivity|]. split; [reflexivity|].
  apply (@scan_keys_are_unique Demo.join Demo.insertion_sort
           insertion_sort_sorts Demo.world Demo.scanner "2025-01-10"
           [Demo.file "README"; Demo.dir "batchA"; Demo.dir "batchB";
            Demo.dir "batchC"]).
  - reflexivity.
  - repeat constructor; simpl; intuition discriminate.
  - intros source [<-|[<-|[<-|[]]]]; vm_compute;
      repeat constructor; simpl; intuition discriminate.
  - vm_compute; reflexivity.
Defined.

Lemma read_lines_respects_the_bound_witness :
  GetLogContent Demo.world Demo.scanner
    "/nfs/batchA/2025-01-11/job3/info.log" 0
  = (["Starting"; "Fatal: disk"; "fatal again"], None)
  /\ (forall maxLines,
         (0 < maxLines)%Z ->
         GetLogContent Demo.world Demo.scanner
           "/nfs/batchA/2025-01-11/job3/info.log" maxLines
         = (firstn (Z.to_nat maxLines)
              ["Starting"; "Fatal: disk"; "fatal again"],
            if (3 <=? Z.to_nat maxLines)%nat then None else None))
  /\ (forall maxLines,
         (maxLines < 0)%Z ->
         GetLogContent Demo.world Demo.scanner
           "/nfs/batchA/2025-01-11/job3/info.log" maxLines
         = ([], None)).
Proof.
  apply (@read_lines_respects_the_bound Demo.world Demo.scanner
           "/nfs/batchA/2025-01-11/job3/info.log"
           (Demo.text ["Starting"; "Fatal: disk"; "fatal again"]));
    reflexivity.
Defined.

Lemma search_hits_are_logs_of_todays_scan_witness :
  exists hits,
    SearchLogs Demo.join Demo.to_lower Demo.insertion_sort Demo.world
      Demo.scanner "fatal" = Ok hits
    /\ map LogEntry.Content hits = ["Fatal: disk"]
    /\ exists summaries,
         ScanLogsForDate Demo.join Demo.insertion_sort Demo.world Demo.scanner
           "2025-01-11" = Ok summaries
         /\ Forall
              (fun hit =>
                 exists run log,
                   In run summaries
                   /\ In log (WorkflowSummary.Logs run)
                   /\ hit = LogEntry.with_Content log (LogEntry.Content hit)
                   /\ In (LogEntry.Content hit)
                        (fst (GetLogContent Demo.world Demo.scanner
                                (LogEntry.FilePath log) 1000))
                   /\ line_matches Demo.to_lower "fatal"
                        (LogEntry.Content hit) = true)
              hits
         /\ (List.length hits
             <= List.length (flat_map WorkflowSummary.Logs summaries))%nat.
Proof.
  eexists. split; [vm_compute; reflexivity|]. split; [reflexivity|].
  apply (@search_hits_are_logs_of_todays_scan Demo.join Demo.to_lower
           Demo.insertion_sort Demo.world Demo.scanner "fatal").
  vm_compute; reflexivity.
Defined.

Lemma filtered_scan_stays_sorted_witness :
  exists summaries a b,
    ScanLogsForDate Demo.join Demo.insertion_sort Demo.world Demo.scanner
      "2025-01-11" = Ok summaries
    /\ nth_error (filterWorkflows summaries EmptyString EmptyString) 0 = Some a
    /\ nth_error (filterWorkflows summaries EmptyString EmptyString) 1 = Some b
    /\ ordered_pair a b.
Proof.
  do 3 eexists. split; [vm_compute; reflexivity|].
  split; [vm_compute; reflexivity|]. split; [vm_compute; reflexivity|].
  apply (@filtered_scan_stays_sorted Demo.join Demo.insertion_sort
           insertion_sort_sorts Demo.world Demo.scanner "2025-01-11"
           EmptyString EmptyString _ eq_refl 0%nat); reflexivity.
Defined.

Lemma overrides_of_an_empty_environment_witness :
  applyEnvOverrides DemoConfig.atoi DemoConfig.empty_environ
    (default_config "test")
  = default_config "test".
Proof.
  apply (@overrides_of_an_empty_environment DemoConfig.atoi
           DemoConfig.empty_environ (default_config "test")).
  intros key. reflexivity.
Defined.

Lemma env_file_never_overrides_witness :
  os_Getenv DemoConfig.environ "ENV" = "prod"
  /\ os_Getenv
       (fst (LoadEnvFile DemoConfig.world DemoConfig.environ "app.env")) "PORT"
     = "9090"
  /\ os_Getenv
       (fst (LoadEnvFile DemoConfig.world DemoConfig.environ "app.env")) "ENV"
     = os_Getenv DemoConfig.environ "ENV".
Proof.
  split; [reflexivity|]. split; [vm_compute; reflexivity|].
  apply (@env_file_never_overrides DemoConfig.world DemoConfig.environ
           "app.env" "ENV").
  discriminate.
Defined.

Lemma mode_comes_from_the_environment_witness :
  exists config,
    snd (LoadConfig Demo.to_lower DemoConfig.world DemoConfig.atoi
           DemoConfig.unmarshal DemoConfig.environ "app.env") = Ok config
    /\ ServerConfig.Port (Config.Server config) = 9090%Z
    /\ Config.Mode config = os_Getenv DemoConfig.environ "ENV".
Proof.
  eexists. split; [vm_compute; reflexivity|]. split; [reflexivity|].
  apply (@mode_comes_from_the_environment Demo.to_lower DemoConfig.world
           DemoConfig.atoi DemoConfig.unmarshal DemoConfig.environ "app.env");
    [discriminate|vm_compute; reflexivity].
Defined.

Lemma yaml_load_never_fails_witness :
  exists config,
    snd (LoadConfig Demo.to_lower DemoConfig.world DemoConfig.atoi
           DemoConfig.unmarshal DemoConfig.environ "settings.yaml") = Ok config
    /\ ((forall file,
            In file
              (candidate_files
                 (fst (LoadEnvFile DemoConfig.world DemoConfig.environ ".env"))
                 "settings.yaml") ->
            fileExists DemoConfig.world file = false) ->
        GetNFSRoot config = "./nfs_backup/monitoring").
Proof.
  apply (@yaml_load_never_fails Demo.to_lower DemoConfig.world DemoConfig.atoi
           DemoConfig.unmarshal DemoConfig.environ "settings.yaml").
  reflexivity.
Defined.

Lemma error_log_verdict_is_the_first_line_witness :
  detectErrors Demo.world Demo.scanner
    "/nfs/batchA/2025-01-11/job3/error.log" "error.log"
  = (negb (String.eqb (TrimSpace EmptyString) EmptyString), None).
Proof.
  apply (@error_log_verdict_is_the_first_line Demo.world Demo.scanner
           "/nfs/batchA/2025-01-11/job3/error.log"
           (Demo.text [""; "boom"]) EmptyString ["boom"] None);
    reflexivity.
Defined.

Lemma config_load_fails_only_on_env_file_witness :
  snd (LoadConfig Demo.to_lower DemoConfig.world DemoConfig.atoi
         DemoConfig.unmarshal DemoConfig.environ "locked.env")
  = Err (Errorf "failed to load .env file"
           (PathError "open" "locked.env" EACCES))
  /\ negb (String.eqb "locked.env" EmptyString)
     && HasSuffix (Demo.to_lower "locked.env") ".env" = true
  /\ exists cause,
       Errorf "failed to load .env file"
         (PathError "open" "locked.env" EACCES)
       = Errorf "failed to load .env file" cause
       /\ ((os_Open DemoConfig.world "locked.env" = Err cause
            /\ os_IsNotExist cause = false)
           \/ exists data,
                os_Open DemoConfig.world "locked.env" = Ok data
                /\ snd (scan_tokens (raw_lines data)) = Some cause).
Proof.
  split; [reflexivity|].
  apply (@config_load_fails_only_on_env_file Demo.to_lower DemoConfig.world
           DemoConfig.atoi DemoConfig.unmarshal DemoConfig.environ
           "locked.env").
  reflexivity.
Defined.

(** C9 as stated fails: of a file whose first line has 65536 bytes and
    whose last two lines are [a] and [b], [GetLogTail] asked for two lines
    returns the error of the scanner and no line; and asked for -1 lines of
    a file of three lines it panics. *)
Lemma tail_fails_on_a_long_line :
  os_Open DemoLong.world "/logs/big.log" = Ok DemoLong.big_log
  /\ N.of_nat (String.length DemoLong.long_line) = MaxScanTokenSize
  /\ raw_lines DemoLong.big_log = [DemoLong.long_line; "a"; "b"]
  /\ GetLogTail DemoLong.world Demo.scanner "/logs/big.log" 2
     = Returns (Err ErrTooLong)
  /\ GetLogTail Demo.world Demo.scanner
       "/nfs/batchA/2025-01-11/job3/info.log" (-1)
     = Panics "slice bounds out of range".
Proof. repeat split; vm_compute; reflexivity. Qed.
